(** * The [no-unused-styles] rule of eslint-plugin-react-with-styles

    A shallow embedding of [lib/rules/no-unused-styles.js]: the syntax
    tree the rule reads, its per-file state ([cssFromWithStylesName],
    [usedStyles], [definedStyles] and the diagnostics handed to
    [context.report]), the three visitor callbacks and the depth-first
    walk that drives them. *)

From stdpp Require Import base strings list gmap.

Local Open Scope string_scope.
Local Open Scope list_scope.
Local Set Warnings "-register-all".

(** ** Syntax trees *)

Module AST.

(** The value of a [Literal] node, and what [getBasicIdentifier] hands
    back: a string, a number, a boolean, a regular expression object or
    [null].  The rule only tests such a value for truthiness, compares it
    with a string, and uses it as a property key.  A number is therefore
    carried as the string JavaScript converts it to, which is the key it
    gives ([1] is ["1"], [0.5] is ["0.5"], [1e21] is ["1e+21"], [1e400]
    is ["Infinity"]); a regular expression object likewise ([/a/ig] is
    ["/a/gi"]). *)
Inductive value :=
| VString (s : string)
| VNumber (spelling : string)
| VBoolean (b : bool)
| VRegExp (spelling : string)
| VNull.

(** ESTree nodes, one constructor per [type].  A template literal with
    [n] expressions has [n + 1] quasis: [quasi0] is [quasis[0].value.raw]
    and [rest] pairs each expression with the quasi that follows it. *)
Inductive node :=
| Program (body : list node)
| ImportDeclaration (specifiers : list node) (source : node)
| ImportSpecifier (imported local : node)
| ImportDefaultSpecifier (local : node)
| VariableDeclaration (kind : string) (declarations : list node)
| VariableDeclarator (id : node) (init : option node)
| ObjectPattern (properties : list node)
| ExpressionStatement (expression : node)
| BlockStatement (body : list node)
| ReturnStatement (argument : option node)
| Identifier (name : string)
| Literal (val : value)
| TemplateLiteral (quasi0 : string) (rest : list (node * string))
| ThisExpression
| MemberExpression (object property : node) (computed : bool)
| CallExpression (callee : node) (arguments : list node)
| ArrowFunctionExpression (params : list node) (body : node)
| FunctionExpression (params : list node) (body : node)
| ObjectExpression (properties : list node)
| Property (key val : node) (computed : bool)
| ExperimentalSpreadProperty (argument : node)
| SpreadElement (argument : node)
| BinaryExpression (operator : string) (lhs rhs : node).

(** [node.type === 'MemberExpression'] *)
Definition isMemberExpression (n : node) : bool :=
  match n with MemberExpression _ _ _ => true | _ => false end.

(** [node.type === 'ThisExpression'] *)
Definition isThisExpression (n : node) : bool :=
  match n with ThisExpression => true | _ => false end.

(** [node.name]: only identifiers carry one; [None] is [undefined]. *)
Definition name (n : node) : option string :=
  match n with Identifier x => Some x | _ => None end.

(** [node.object]: only member expressions carry one. *)
Definition object (n : node) : option node :=
  match n with MemberExpression o _ _ => Some o | _ => None end.

(** Truthiness of [node.computed]; [undefined] where the field is absent. *)
Definition computed (n : node) : bool :=
  match n with
  | Property _ _ c => c
  | MemberExpression _ _ c => c
  | _ => false
  end.

(** [node.key]: only properties carry one. *)
Definition key (n : node) : option node :=
  match n with Property k _ _ => Some k | _ => None end.

(** [node.properties]: object literals (and patterns) carry them. *)
Definition properties (n : node) : option (list node) :=
  match n with
  | ObjectExpression ps => Some ps
  | ObjectPattern ps => Some ps
  | _ => None
  end.

(** A node as a callback sees it: the node and the chain of its
    [.parent] links, nearest first. *)
Definition located : Type := node * list node.

(** The order in which the walker enters the nodes of a tree: depth
    first, a node before its children, children in source order. *)
Fixpoint visits (parents : list node) (n : node) : list located :=
  let go := visits (n :: parents) in
  (n, parents) ::
  match n with
  | Program body => flat_map go body
  | ImportDeclaration specifiers source => flat_map go specifiers ++ go source
  | ImportSpecifier imported local => go imported ++ go local
  | ImportDefaultSpecifier local => go local
  | VariableDeclaration _ declarations => flat_map go declarations
  | VariableDeclarator id init =>
      go id ++ match init with Some e => go e | None => [] end
  | ObjectPattern properties => flat_map go properties
  | ExpressionStatement expression => go expression
  | BlockStatement body => flat_map go body
  | ReturnStatement argument =>
      match argument with Some e => go e | None => [] end
  | Identifier _ | Literal _ | ThisExpression => []
  | TemplateLiteral _ rest => flat_map (fun p => go (fst p)) rest
  | MemberExpression object property _ => go object ++ go property
  | CallExpression callee arguments => go callee ++ flat_map go arguments
  | ArrowFunctionExpression params body => flat_map go params ++ go body
  | FunctionExpression params body => flat_map go params ++ go body
  | ObjectExpression properties => flat_map go properties
  | Property key val _ => go key ++ go val
  | ExperimentalSpreadProperty argument => go argument
  | SpreadElement argument => go argument
  | BinaryExpression _ lhs rhs => go lhs ++ go rhs
  end.

End AST.

(** ** JavaScript values and objects used as maps *)

(** [!!v]: the falsy numbers are zero, spelled ["0"], and [NaN]. *)
Definition truthy (v : AST.value) : bool :=
  match v with
  | AST.VString s => negb (bool_decide (s = ""))
  | AST.VNumber spelling =>
      negb (bool_decide (spelling = "0") || bool_decide (spelling = "NaN"))
  | AST.VBoolean b => b
  | AST.VRegExp _ => true
  | AST.VNull => false
  end.

(** [v !== s] for a string [s] *)
Definition differs (v : AST.value) (s : string) : bool :=
  match v with
  | AST.VString x => negb (bool_decide (x = s))
  | _ => true
  end.

(** The property key a value turns into when it indexes an object. *)
Definition toPropertyKey (v : AST.value) : string :=
  match v with
  | AST.VString s => s
  | AST.VNumber spelling => spelling
  | AST.VBoolean true => "true"
  | AST.VBoolean false => "false"
  | AST.VRegExp spelling => spelling
  | AST.VNull => "null"
  end.

(** [usedStyles[k] = true] on a plain object kept as the set of its own
    keys.  Assigning a primitive to [__proto__] goes to the inherited
    setter, which ignores it: no own property appears. *)
Definition markUsed (k : string) (used : gset string) : gset string :=
  if bool_decide (k = "__proto__") then used else {[ k ]} ∪ used.

(** [has(usedStyles, k)]: own-property test. *)
Definition has (used : gset string) (k : string) : bool :=
  bool_decide (k ∈ used).

(** [definedStyles[k] = v] on a plain object kept as the list of its own
    entries in [Object.keys] order: a new key goes last, an existing key
    keeps its place and takes the new value.  (The keys stored here are
    identifier names or ["undefined"], never array indices, so
    [Object.keys] lists them in insertion order.)  Assigning a node to
    [__proto__] changes the prototype and adds no own property. *)
Fixpoint assign {V : Type} (k : string) (v : V) (o : list (string * V))
  : list (string * V) :=
  match o with
  | [] => [(k, v)]
  | (k', v') :: o' =>
      if bool_decide (k' = k) then (k, v) :: o' else (k', v') :: assign k v o'
  end.

Definition define {V : Type} (k : string) (v : V) (o : list (string * V))
  : list (string * V) :=
  if bool_decide (k = "__proto__") then o else assign k v o.

(** [o[k]] for an own key. *)
Fixpoint get {V : Type} (o : list (string * V)) (k : string) : option V :=
  match o with
  | [] => None
  | (k', v) :: o' => if bool_decide (k' = k) then Some v else get o' k
  end.

(** ** Results: a callback returns, or a [TypeError] escapes it *)

Inductive result (A : Type) :=
| Ok (a : A)
| TypeError.
Arguments Ok {A} a.
Arguments TypeError {A}.

#[global] Instance result_ret : MRet result := @Ok.
#[global] Instance result_bind : MBind result := λ A B f m,
  match m with Ok a => f a | TypeError => TypeError end.

(** [xs.forEach(f)] for a callback that updates an accumulator and may
    throw: the first throw ends the loop. *)
Fixpoint forEach {A S : Type} (f : S → A → result S) (xs : list A) (s : S)
  : result S :=
  match xs with
  | [] => Ok s
  | x :: xs' => s' ← f s x; forEach f xs' s'
  end.

(** ** [getBasicIdentifier] (lines 8-27) *)

Definition getBasicIdentifier (node : AST.node) : AST.value :=
  match node with
  | AST.Identifier name => AST.VString name
  | AST.Literal val => val
  | AST.TemplateLiteral quasi0 rest =>
      if negb (bool_decide (length rest = 0)) then AST.VNull
      else AST.VString quasi0
  | _ => AST.VNull
  end.

(** ** The rule's state (lines 42-45) and the diagnostics it has sent *)

Record state := State {
  cssFromWithStylesName : option string;
  usedStyles : gset string;
  definedStyles : list (string * AST.node);
  reports : list (AST.node * string)
}.

Definition initial : state := State None ∅ [] [].

Definition setName (x : string) (st : state) : state :=
  State (Some x) (usedStyles st) (definedStyles st) (reports st).

Definition setUsed (k : string) (st : state) : state :=
  State (cssFromWithStylesName st) (markUsed k (usedStyles st))
        (definedStyles st) (reports st).

Definition setDefined (k : string) (p : AST.node) (st : state) : state :=
  State (cssFromWithStylesName st) (usedStyles st)
        (define k p (definedStyles st)) (reports st).

(** [context.report(node, message)] *)
Definition report (n : AST.node) (message : string) (st : state) : state :=
  State (cssFromWithStylesName st) (usedStyles st) (definedStyles st)
        (reports st ++ [(n, message)]).

(** [!!cssFromWithStylesName] (lines 47-49) *)
Definition isCSSFound (st : state) : bool :=
  match cssFromWithStylesName st with
  | Some x => negb (bool_decide (x = ""))
  | None => false
  end.

(** [`Style \`${definedStyleKey}\` is unused`] *)
Definition unusedMessage (definedStyleKey : string) : string :=
  "Style `" +:+ definedStyleKey +:+ "` is unused".

(** ** The visitor callbacks (lines 51-187) *)

(** Where [MemberExpression] returns: one constructor per [return] of
    lines 119-174, with the value whose truthiness decides the
    assignment to [usedStyles] just before it. *)
Inductive memberExit :=
| NoCSS                                (* line 123 *)
| Direct (style : AST.value)           (* line 131 *)
| PropertyUnresolved                   (* line 137 *)
| PropertyNotStyles                    (* line 142 *)
| ParentNotMember                      (* line 149 *)
| ObjectOfObjectNotThis                (* line 154 *)
| PropsNamedOtherwise                  (* line 159 *)
| PropsNeitherNamedNorMember           (* line 162 *)
| GrandparentIsMember                  (* line 167 *)
| ThroughProps (style : AST.value).    (* line 174 *)

Section Rule.

(** The two detectors of [lib/util], required on lines 5-6: each maps
    a node (with its parent links) to the local name of [css], or to
    [null]. *)
Variable findImportCSSFromWithStylesImportDeclaration :
  AST.node → list AST.node → option string.
Variable findRequireCSSFromWithStylesCallExpression :
  AST.node → list AST.node → option string.

(** Lines 53-56. *)
Definition recordRequire (node : AST.node) (parents : list AST.node)
    (st : state) : state :=
  match findRequireCSSFromWithStylesCallExpression node parents with
  | Some found => setName found st
  | None => st
  end.

(** The callback of [body.body.forEach] (lines 75-82).  A [return]
    without argument has [argument === null], and reading [.type] of it
    throws. *)
Definition returnedObject (stylesObj : option AST.node)
    (bodyNode : AST.node) : result (option AST.node) :=
  match bodyNode with
  | AST.ReturnStatement None => TypeError
  | AST.ReturnStatement (Some (AST.ObjectExpression properties)) =>
      Ok (Some (AST.ObjectExpression properties))
  | _ => Ok stylesObj
  end.

(** Lines 71-83. *)
Definition findStylesObj (body : AST.node) : result (option AST.node) :=
  match body with
  | AST.ObjectExpression _ => Ok (Some body)
  | AST.BlockStatement statements => forEach returnedObject statements None
  | _ => Ok None
  end.

(** [property.key.name] as the key of the assignment of line 101: a
    key that has no [name] gives [undefined], spelled ["undefined"]. *)
Definition keyName (key : AST.node) : string :=
  match AST.name key with
  | Some x => x
  | None => "undefined"
  end.

(** The callback of [stylesObj.properties.forEach] (lines 86-102). *)
Definition defineProperty (st : state) (property : AST.node)
    : result state :=
  if AST.computed property then Ok st
  else
    match property with
    | AST.ExperimentalSpreadProperty _ => Ok st
    | _ =>
        match AST.key property with
        | Some key => Ok (setDefined (keyName key) property st)
        | None => TypeError
        end
    end.

(** Lines 66-104: [styles] is [node.arguments[0]]. *)
Definition extractStyles (styles : option AST.node) (st : state)
    : result state :=
  match styles with
  | Some (AST.ArrowFunctionExpression _ body) =>
      stylesObj ← findStylesObj body;
      match stylesObj with
      | Some obj =>
          match AST.properties obj with
          | Some properties => forEach defineProperty properties st
          | None => TypeError
          end
      | None => Ok st
      end
  | _ => Ok st
  end.

(** Lines 108-115: one pass over the own entries of [definedStyles]. *)
Definition reportUnused (st : state) : state :=
  fold_left
    (λ st' entry,
       if negb (has (usedStyles st') entry.1)
       then report entry.2 (unusedMessage entry.1) st'
       else st')
    (definedStyles st) st.

(** Lines 52-117. *)
Definition CallExpression (node : AST.node) (parents : list AST.node)
    (st : state) : result state :=
  let st := recordRequire node parents st in
  if negb (isCSSFound st) then Ok st
  else
    match node with
    | AST.CallExpression callee arguments =>
        if bool_decide (AST.name callee = Some "withStyles") then
          st' ← extractStyles (head arguments) st;
          Ok (reportUnused st')
        else Ok st
    | _ => TypeError
    end.

(** Lines 119-174, up to the choice of the [return]. *)
Definition memberExpressionExit (node : AST.node) (parents : list AST.node)
    (st : state) : result memberExit :=
  if negb (isCSSFound st) then Ok NoCSS
  else
    match node with
    | AST.MemberExpression object property _ =>
        if bool_decide (AST.name object = Some "styles") then
          Ok (Direct (getBasicIdentifier property))
        else
          let stylesIdentifier := getBasicIdentifier property in
          if negb (truthy stylesIdentifier) then Ok PropertyUnresolved
          else if differs stylesIdentifier "styles" then Ok PropertyNotStyles
          else
            match parents with
            | [] => TypeError
            | parent :: ancestors =>
                match parent with
                | AST.MemberExpression parentObject parentProperty _ =>
                    if match AST.object object with
                       | Some inner => negb (AST.isThisExpression inner)
                       | None => false
                       end
                    then Ok ObjectOfObjectNotThis
                    else
                      let propsIdentifier := getBasicIdentifier parentObject in
                      if truthy propsIdentifier && differs propsIdentifier "props"
                      then Ok PropsNamedOtherwise
                      else if negb (truthy propsIdentifier)
                              && negb (AST.isMemberExpression parentObject)
                      then Ok PropsNeitherNamedNorMember
                      else
                        match ancestors with
                        | [] => TypeError
                        | grandparent :: _ =>
                            if AST.isMemberExpression grandparent
                            then Ok GrandparentIsMember
                            else Ok (ThroughProps (getBasicIdentifier parentProperty))
                        end
                | _ => Ok ParentNotMember
                end
            end
    | _ => TypeError
    end.

(** The assignment [usedStyles[style] = true] guarded by [if (style)]
    (lines 128-130 and 171-173). *)
Definition useStyle (style : AST.value) (st : state) : state :=
  if truthy style then setUsed (toPropertyKey style) st else st.

Definition applyExit (e : memberExit) (st : state) : state :=
  match e with
  | Direct style | ThroughProps style => useStyle style st
  | _ => st
  end.

(** Lines 119-174. *)
Definition MemberExpression (node : AST.node) (parents : list AST.node)
    (st : state) : result state :=
  e ← memberExpressionExit node parents st;
  Ok (applyExit e st).

(** Lines 176-186. *)
Definition ImportDeclaration (node : AST.node) (parents : list AST.node)
    (st : state) : result state :=
  if isCSSFound st then Ok st
  else
    match findImportCSSFromWithStylesImportDeclaration node parents with
    | Some found => Ok (setName found st)
    | None => Ok st
    end.

(** The walker enters a node: the callback registered for its type, if
    any, runs. *)
Definition enter (v : AST.located) (st : state) : result state :=
  match v.1 with
  | AST.CallExpression _ _ => CallExpression v.1 v.2 st
  | AST.MemberExpression _ _ _ => MemberExpression v.1 v.2 st
  | AST.ImportDeclaration _ _ => ImportDeclaration v.1 v.2 st
  | _ => Ok st
  end.

Definition run (vs : list AST.located) (st : state) : result state :=
  forEach (λ st' v, enter v st') vs st.

(** One file: a fresh state, one walk of the tree. *)
Definition lint (program : AST.node) : result state :=
  run (AST.visits [] program) initial.

End Rule.

(** ** The detectors and sample files *)

(** Modelled from the spec: the import-pattern detector
    [lib/util/findImportCSSFromWithStylesImportDeclaration.js], whose
    source is not at hand: "an import declaration whose source module is
    the known styling library and which imports the specific export name
    used to author styles, bound to some local name". *)
Definition cssLocalOfSpecifier (specifier : AST.node) : option string :=
  match specifier with
  | AST.ImportSpecifier imported local =>
      if bool_decide (AST.name imported = Some "css") then AST.name local
      else None
  | _ => None
  end.

Definition detectImport (node : AST.node) (parents : list AST.node)
    : option string :=
  match node with
  | AST.ImportDeclaration specifiers (AST.Literal (AST.VString source)) =>
      if bool_decide (source = "react-with-styles")
      then head (omap cssLocalOfSpecifier specifiers)
      else None
  | _ => None
  end.

(** Modelled from the spec: the require-pattern detector
    [lib/util/findRequireCSSFromWithStylesCallExpression.js], whose
    source is not at hand: "a call expression that is the call-based
    equivalent (e.g., a dynamic require of the same library/export),
    likewise yielding a local binding name". *)
Definition cssLocalOfProperty (property : AST.node) : option string :=
  match property with
  | AST.Property key val _ =>
      if bool_decide (AST.name key = Some "css") then AST.name val else None
  | _ => None
  end.

Definition detectRequire (node : AST.node) (parents : list AST.node)
    : option string :=
  match node, parents with
  | AST.CallExpression callee [AST.Literal (AST.VString source)],
    AST.VariableDeclarator (AST.ObjectPattern properties) _ :: _ =>
      if bool_decide (AST.name callee = Some "require")
         && bool_decide (source = "react-with-styles")
      then head (omap cssLocalOfProperty properties)
      else None
  | _, _ => None
  end.

(** The rule with these detectors. *)
Definition lintFile : AST.node → result state :=
  lint detectImport detectRequire.

Module Sample.
Import AST.

(** [{}] *)
Definition emptyObject : node := ObjectExpression [].

(** [x: {}] *)
Definition rule (x : string) : node :=
  Property (Identifier x) emptyObject false.

(** [import { css } from 'react-with-styles';] *)
Definition importCSS : node :=
  ImportDeclaration
    [ImportSpecifier (Identifier "css") (Identifier "css")]
    (Literal (VString "react-with-styles")).

(** [const { css: local } = require('react-with-styles');] *)
Definition requireCSS (local : string) : node :=
  VariableDeclaration "const"
    [VariableDeclarator
       (ObjectPattern [Property (Identifier "css") (Identifier local) false])
       (Some (CallExpression (Identifier "require")
                [Literal (VString "react-with-styles")]))].

(** [withStyles(() => body)] *)
Definition withStylesOf (body : node) : node :=
  CallExpression (Identifier "withStyles") [ArrowFunctionExpression [] body].

(** [withStyles(() => ({ a: {}, b: {} }));] *)
Definition withStylesAB : node :=
  ExpressionStatement
    (withStylesOf (ObjectExpression [rule "a"; rule "b"])).

(** [styles.x] *)
Definition stylesDot (x : string) : node :=
  MemberExpression (Identifier "styles") (Identifier x) false.

(** [this.props] *)
Definition thisProps : node :=
  MemberExpression ThisExpression (Identifier "props") false.

(** [this.props.styles] *)
Definition thisPropsStyles : node :=
  MemberExpression thisProps (Identifier "styles") false.

(** [this.props.styles.x] *)
Definition thisPropsStylesDot (x : string) : node :=
  MemberExpression thisPropsStyles (Identifier x) false.




(** A state in which [css] has been found under its own name. *)
Definition found : state := State (Some "css") ∅ [] [].

End Sample.

Module File.
Import AST.

(** [withStyles(() => ({ a: {} }));] and nothing else. *)
Definition withoutImport : node :=
  Program
    [ExpressionStatement
       (Sample.withStylesOf (ObjectExpression [Sample.rule "a"]))].

(** ['foo': {}] *)
Definition quotedFoo : node :=
  Property (Literal (VString "foo")) Sample.emptyObject false.

(** [import { css } from 'react-with-styles';
     styles['foo'];
     withStyles(() => ({ 'foo': {} }));] *)
Definition quotedKey : node :=
  Program
    [Sample.importCSS;
     ExpressionStatement
       (MemberExpression (Identifier "styles") (Literal (VString "foo")) true);
     ExpressionStatement (Sample.withStylesOf (ObjectExpression [quotedFoo]))].

(** [import { css } from 'react-with-styles';
     withStyles(() => ({ a: {} }));] *)
Definition oneUnused : node :=
  Program
    [Sample.importCSS;
     ExpressionStatement
       (Sample.withStylesOf (ObjectExpression [Sample.rule "a"]))].

(** [withStyles()] *)
Definition bareCall : node := CallExpression (Identifier "withStyles") [].

(** [import { css } from 'react-with-styles';
     withStyles(() => ({ a: {} }));
     withStyles();] *)
Definition thenBareCall : node :=
  Program
    [Sample.importCSS;
     ExpressionStatement
       (Sample.withStylesOf (ObjectExpression [Sample.rule "a"]));
     ExpressionStatement bareCall].

(** [import { css } from 'react-with-styles';
     withStyles(() => { return; });] *)
Definition bareReturn : node :=
  Program
    [Sample.importCSS;
     ExpressionStatement
       (Sample.withStylesOf (BlockStatement [ReturnStatement None]))].

(** [{ return { a: {} }; return; }] *)
Definition objectThenBareReturn : list node :=
  [ReturnStatement (Some (ObjectExpression [Sample.rule "a"]));
   ReturnStatement None].

(** [import { css } from 'react-with-styles';
     withStyles(() => { return { a: {} }; return; });] *)
Definition returnTwice : node :=
  Program
    [Sample.importCSS;
     ExpressionStatement
       (Sample.withStylesOf (BlockStatement objectThenBareReturn))].

(** [{ return { a: {} }; return { b: {} }; }] *)
Definition twoObjectReturns : list node :=
  [ReturnStatement (Some (ObjectExpression [Sample.rule "a"]));
   ReturnStatement (Some (ObjectExpression [Sample.rule "b"]))].

(** [const { css: css } = require('react-with-styles');] *)
Definition requireOnce : node := Program [Sample.requireCSS "css"].

(** [const { css: css } = require('react-with-styles');
     const { css: c2 } = require('react-with-styles');] *)
Definition requireTwice : node :=
  Program [Sample.requireCSS "css"; Sample.requireCSS "c2"].

(** [require('react-with-styles')] and the declarator
    [{ css: c2 } = require('react-with-styles')] it initialises. *)
Definition requireCall : node :=
  CallExpression (Identifier "require") [Literal (VString "react-with-styles")].

Definition declaratorC2 : node :=
  VariableDeclarator
    (ObjectPattern [Property (Identifier "css") (Identifier "c2") false])
    (Some requireCall).

(** [import { css } from 'react-with-styles';
     withStyles(() => ({ a: {}, b: {} }));
     styles.a;] *)
Definition usedAfterwards : node :=
  Program
    [Sample.importCSS;
     Sample.withStylesAB;
     ExpressionStatement (Sample.stylesDot "a")].

(** [import { css } from 'react-with-styles';
     styles.a;
     withStyles(() => ({ a: {}, b: {} }));] *)
Definition usedBefore : node :=
  Program
    [Sample.importCSS;
     ExpressionStatement (Sample.stylesDot "a");
     Sample.withStylesAB].

(** [styles.a;
     import { css } from 'react-with-styles';
     withStyles(() => ({ a: {} }));] *)
Definition usedBeforeImport : node :=
  Program
    [ExpressionStatement (Sample.stylesDot "a");
     Sample.importCSS;
     ExpressionStatement
       (Sample.withStylesOf (ObjectExpression [Sample.rule "a"]))].



(** [this.props.styles.foo;] *)
Definition chainStatement : node :=
  ExpressionStatement (Sample.thisPropsStylesDot "foo").

(** [styles['']] *)
Definition stylesEmptyKey : node :=
  MemberExpression (Identifier "styles") (Literal (VString "")) true.

(** The state after [oneUnused]: [a] is defined and has been reported. *)
Definition afterOneUnused : state :=
  State (Some "css") ∅ [("a", Sample.rule "a")]
    [(Sample.rule "a", "Style `a` is unused")].

End File.

(** ** Notions the statements below are phrased with *)

(** The diagnostics one pass of lines 108-115 sends: one per own entry of
    [definedStyles] whose key is not an own key of [usedStyles]. *)
Fixpoint unusedEntries (used : gset string) (defined : list (string * AST.node))
  : list (AST.node * string) :=
  match defined with
  | [] => []
  | (k, n) :: defined' =>
      if has used k then unusedEntries used defined'
      else (n, unusedMessage k) :: unusedEntries used defined'
  end.

(** The style-definitions object of a first argument [styles], when one
    is found (lines 68-83). *)
Definition stylesObjOf (styles : option AST.node) : result (option AST.node) :=
  match styles with
  | Some (AST.ArrowFunctionExpression _ body) => findStylesObj body
  | _ => Ok None
  end.

(** A top-level [return] of an object literal gives that object. *)
Definition objectReturned (statement : AST.node) : option AST.node :=
  match statement with
  | AST.ReturnStatement (Some (AST.ObjectExpression properties)) =>
      Some (AST.ObjectExpression properties)
  | _ => None
  end.

(** The argument of the last top-level [return] of an object literal. *)
Definition lastObjectReturned (statements : list AST.node) : option AST.node :=
  last (omap objectReturned statements).

(** [return;] *)
Definition isBareReturn (statement : AST.node) : bool :=
  match statement with
  | AST.ReturnStatement None => true
  | _ => false
  end.

(** The first arguments on which lines 66-83 end without a definitions
    object and without throwing: no argument; an argument that is not an
    arrow function; an arrow function whose body is neither an object
    literal nor a block; an arrow function whose block body has, at its
    top level, no [return] of an object literal and no [return] without
    argument. *)
Definition resolvesNothing (styles : option AST.node) : bool :=
  match styles with
  | Some (AST.ArrowFunctionExpression _ (AST.ObjectExpression _)) => false
  | Some (AST.ArrowFunctionExpression _ (AST.BlockStatement statements)) =>
      negb (existsb isBareReturn statements)
      && match lastObjectReturned statements with
         | Some _ => false
         | None => true
         end
  | _ => true
  end.

(** Neither detector answers at the node [v]: the import detector at an
    import declaration, the require detector at a call. *)
Definition undetected
    (findImport findRequire : AST.node → list AST.node → option string)
    (v : AST.located) : Prop :=
  match v.1 with
  | AST.ImportDeclaration _ _ => findImport v.1 v.2 = None
  | AST.CallExpression _ _ => findRequire v.1 v.2 = None
  | _ => True
  end.

(** What lines 53-56 leave in [cssFromWithStylesName]. *)
Definition nameAfterRequire
    (findRequire : AST.node → list AST.node → option string)
    (node : AST.node) (parents : list AST.node) (st : state) : option string :=
  match findRequire node parents with
  | Some found => Some found
  | None => cssFromWithStylesName st
  end.

(** ** Notions for the properties of the callbacks at large *)

(** The key under which line 101 stores a property, for the properties
    that reach that line with a [key]. *)
Definition recordedKey (property : AST.node) : option string :=
  if AST.computed property then None
  else
    match property with
    | AST.ExperimentalSpreadProperty _ => None
    | _ => keyName <$> AST.key property
    end.

(** A property on which line 101 throws: neither computed nor an
    [ExperimentalSpreadProperty], and without a [key]. *)
Definition throwingProperty (property : AST.node) : bool :=
  if AST.computed property then false
  else
    match property with
    | AST.ExperimentalSpreadProperty _ => false
    | _ => bool_decide (AST.key property = None)
    end.

(** First arguments of [withStyles] on which lines 66-104 throw. *)
Definition extractionThrows (styles : option AST.node) : bool :=
  match styles with
  | Some (AST.ArrowFunctionExpression _ (AST.ObjectExpression properties)) =>
      existsb throwingProperty properties
  | Some (AST.ArrowFunctionExpression _ (AST.BlockStatement statements)) =>
      existsb isBareReturn statements
      || match lastObjectReturned statements with
         | Some obj =>
             match AST.properties obj with
             | Some properties => existsb throwingProperty properties
             | None => true
             end
         | None => false
         end
  | _ => false
  end.

(** [node] is a call whose callee is the identifier [withStyles]. *)
Definition callsWithStyles (node : AST.node) : bool :=
  match node with
  | AST.CallExpression callee _ =>
      bool_decide (AST.name callee = Some "withStyles")
  | _ => false
  end.

(** A call of [withStyles] on whose first argument lines 66-104 throw. *)
Definition throwingCall (node : AST.node) : bool :=
  match node with
  | AST.CallExpression callee arguments =>
      bool_decide (AST.name callee = Some "withStyles")
      && extractionThrows (head arguments)
  | _ => false
  end.

(** Parent links as a tree gives them below its root: there is a parent,
    and a parent that is a member access has a parent of its own. *)
Definition linked (parents : list AST.node) : Prop :=
  match parents with
  | [] => False
  | parent :: ancestors =>
      AST.isMemberExpression parent = true → ancestors ≠ []
  end.

(** The state only grows: [usedStyles] and the keys of [definedStyles]
    gain elements, the diagnostics sent so far stay in front. *)
Definition grows (st st' : state) : Prop :=
  usedStyles st ⊆ usedStyles st'
  ∧ (definedStyles st).*1 ⊆ (definedStyles st').*1
  ∧ reports st `prefix_of` reports st'.

(** Every diagnostic sent is the message for a key of [definedStyles]. *)
Definition reportsDefined (st : state) : Prop :=
  Forall (λ r, ∃ k, r.2 = unusedMessage k ∧ k ∈ (definedStyles st).*1)
    (reports st).

(** [styles.k;] *)
Definition useStatement (k : string) : AST.node :=
  AST.ExpressionStatement (Sample.stylesDot k).

(** [withStyles(() => ({ k1: {}, ..., kn: {} }))] and its statement. *)
Definition definitionCall (defined : list string) : AST.node :=
  Sample.withStylesOf (AST.ObjectExpression (Sample.rule <$> defined)).

Definition definitionStatement (defined : list string) : AST.node :=
  AST.ExpressionStatement (definitionCall defined).

(** The usual layout of a file: the import, then the uses [styles.k;],
    then the call that defines the styles. *)
Definition usesThenDefinition (used defined : list string) : AST.node :=
  AST.Program
    (Sample.importCSS
     :: (useStatement <$> used) ++ [definitionStatement defined]).

(** ** General facts *)

Lemma forEach_app {A S : Type} (f : S → A → result S) (xs ys : list A) (s : S) :
  forEach f (xs ++ ys) s = s' ← forEach f xs s; forEach f ys s'.
Proof.
  revert s. induction xs as [|x xs IH]; intros s; simpl; [done|].
  destruct (f s x) as [s'|]; simpl; [apply IH|done].
Qed.

Lemma isCSSFound_unset (st : state) :
  cssFromWithStylesName st = None → isCSSFound st = false.
Proof. unfold isCSSFound. by intros ->. Qed.

Lemma reportUnused_fold (used : gset string) (name : option string)
    (defined : list (string * AST.node)) (entries : list (string * AST.node))
    (sent : list (AST.node * string)) :
  fold_left
    (λ st' entry,
       if negb (has (usedStyles st') entry.1)
       then report entry.2 (unusedMessage entry.1) st'
       else st')
    entries (State name used defined sent)
  = State name used defined (sent ++ unusedEntries used entries).
Proof.
  revert sent. induction entries as [|[k n] entries IH]; intros sent; simpl.
  - by rewrite app_nil_r.
  - destruct (has used k); simpl.
    + apply IH.
    + unfold report; simpl. rewrite IH. by rewrite <- app_assoc.
Qed.

Lemma reportUnused_spec (st : state) :
  reportUnused st
  = State (cssFromWithStylesName st) (usedStyles st) (definedStyles st)
      (reports st ++ unusedEntries (usedStyles st) (definedStyles st)).
Proof. destruct st. apply reportUnused_fold. Qed.

Lemma unusedEntries_all_used (used : gset string)
    (defined : list (string * AST.node)) :
  Forall (λ entry, has used entry.1 = true) defined →
  unusedEntries used defined = [].
Proof.
  induction 1 as [|[k n] defined Hk _ IH]; simpl; [done|].
  simpl in Hk. by rewrite Hk.
Qed.

Lemma returnedObject_spec (stylesObj : option AST.node) (statement : AST.node) :
  isBareReturn statement = false →
  returnedObject stylesObj statement
  = Ok (match objectReturned statement with
        | Some obj => Some obj
        | None => stylesObj
        end).
Proof.
  destruct statement; try done.
  destruct argument as [argument|]; [|done]. by destruct argument.
Qed.

Lemma scan_from (statements : list AST.node) (stylesObj : option AST.node) :
  Forall (λ statement, isBareReturn statement = false) statements →
  forEach returnedObject statements stylesObj
  = Ok (match lastObjectReturned statements with
        | Some obj => Some obj
        | None => stylesObj
        end).
Proof.
  intros Hall. revert stylesObj.
  induction Hall as [|statement statements Hs _ IH]; intros stylesObj; [done|].
  simpl. rewrite (returnedObject_spec _ _ Hs). simpl. rewrite IH.
  unfold lastObjectReturned. simpl.
  destruct (objectReturned statement) as [obj|]; [|done].
  rewrite last_cons. by destruct (last _).
Qed.

(** Without a bare [return] at its top level, a block body gives the
    argument of its last top-level [return] of an object literal: the
    loop visits every statement and the last assignment stays. *)
Lemma scan_last_object_return (statements : list AST.node) :
  Forall (λ statement, isBareReturn statement = false) statements →
  findStylesObj (AST.BlockStatement statements)
  = Ok (lastObjectReturned statements).
Proof.
  intros Hall. simpl. rewrite (scan_from statements None Hall).
  by destruct (lastObjectReturned statements).
Qed.

(** A bare [return] at the top level of the block makes the loop throw,
    whatever has been found before it and whatever follows. *)
Lemma scan_bare_return_throws (before after : list AST.node) :
  Forall (λ statement, isBareReturn statement = false) before →
  findStylesObj (AST.BlockStatement (before ++ AST.ReturnStatement None :: after))
  = TypeError.
Proof.
  intros Hall. simpl. rewrite forEach_app.
  by rewrite (scan_from before None Hall).
Qed.

Lemma scan_from_spec (statements : list AST.node) (stylesObj : option AST.node) :
  forEach returnedObject statements stylesObj
  = if existsb isBareReturn statements then TypeError
    else Ok (match lastObjectReturned statements with
             | Some obj => Some obj
             | None => stylesObj
             end).
Proof.
  revert stylesObj.
  induction statements as [|statement statements IH]; intros stylesObj; [done|].
  simpl. destruct (isBareReturn statement) eqn:Hbare.
  - destruct statement; try done. by destruct argument.
  - rewrite (returnedObject_spec _ _ Hbare). simpl. rewrite IH.
    destruct (existsb _ _); [done|].
    unfold lastObjectReturned. simpl.
    destruct (objectReturned statement) as [obj|]; [|done].
    rewrite last_cons. by destruct (last _).
Qed.

(** [resolvesNothing] says that lines 66-83 end with no object. *)
Lemma resolvesNothing_spec (styles : option AST.node) :
  resolvesNothing styles = true ↔ stylesObjOf styles = Ok None.
Proof.
  destruct styles as [styles|]; [|done].
  destruct styles as [| | | | | | | | | | | | | | | |params body| | | | | |];
    try done.
  destruct body; try done; cbn [resolvesNothing stylesObjOf findStylesObj].
  rewrite scan_from_spec. destruct (existsb isBareReturn body); [done|].
  by destruct (lastObjectReturned body).
Qed.

Lemma extractStyles_unresolved (styles : option AST.node) (st : state) :
  stylesObjOf styles = Ok None → extractStyles styles st = Ok st.
Proof.
  intros Hnone. destruct styles as [styles|]; [|done].
  destruct styles; try done. simpl in *. by rewrite Hnone.
Qed.

Section Properties.

Variable findImport findRequire : AST.node → list AST.node → option string.

Local Abbreviation enter' := (enter findImport findRequire).
Local Abbreviation run' := (run findImport findRequire).
Local Abbreviation lint' := (lint findImport findRequire).

Lemma run_app (vs ws : list AST.located) (st : state) :
  run' (vs ++ ws) st = st' ← run' vs st; run' ws st'.
Proof. apply forEach_app. Qed.

Lemma enter_closed (v : AST.located) (st : state) :
  isCSSFound st = false → undetected findImport findRequire v →
  enter' v st = Ok st.
Proof.
  intros Hst Hv. destruct v as [n ps]. unfold undetected in Hv.
  destruct n; cbn [enter fst snd] in *; try done.
  - unfold ImportDeclaration. by rewrite Hst, Hv.
  - unfold MemberExpression, memberExpressionExit. by rewrite Hst.
  - unfold CallExpression, recordRequire. rewrite Hv. by rewrite Hst.
Qed.

Lemma run_closed (vs : list AST.located) (st : state) :
  isCSSFound st = false → Forall (undetected findImport findRequire) vs →
  run' vs st = Ok st.
Proof.
  intros Hst Hvs. induction Hvs as [|v vs Hv _ IH]; simpl; [done|].
  unfold run in *; simpl. rewrite (enter_closed v st Hst Hv). simpl. apply IH.
Qed.

(** C5. In a file where the import detector answers [null] at every
    import declaration and the require detector answers [null] at
    every call, the walk ends normally and no diagnostic has been sent
    (the state is the one it started from), whatever [withStyles]
    calls and member accesses the file holds. *)
Theorem no_detection_no_diagnostics (program : AST.node) :
  Forall (undetected findImport findRequire) (AST.visits [] program) →
  ∃ st, lint' program = Ok st ∧ reports st = [] ∧ st = initial.
Proof.
  intros Hnone. exists initial. split; [|done].
  unfold lint. by apply run_closed.
Qed.

(** C10. While [cssFromWithStylesName] is unset, the callback for a
    member access returns at once and leaves the state as it was:
    [usedStyles] gains no key, so whatever is visited afterwards runs
    exactly as if the access had not been there. *)
Theorem member_access_before_detection
    (node : AST.node) (parents : list AST.node) (st : state) :
  cssFromWithStylesName st = None →
  ∃ st', MemberExpression node parents st = Ok st'
         ∧ st' = st
         ∧ usedStyles st' = usedStyles st
         ∧ ∀ vs, run' vs st' = run' vs st.
Proof.
  intros Hunset. exists st. split; [|done].
  unfold MemberExpression, memberExpressionExit.
  by rewrite (isCSSFound_unset st Hunset).
Qed.

End Properties.

(** ** The diff of lines 106-115 runs at every [withStyles] call *)

Section DiffAtEveryCall.

Variable findRequire : AST.node → list AST.node → option string.

(** C2, as the code has it. At a [withStyles] call reached with the gate
    open and at which lines 66-83 end without a style-definitions object
    and without throwing — no first argument; a first argument that is
    not an arrow function; an arrow function whose body is neither an
    object literal nor a block; an arrow function whose block body has,
    at its top level, no [return] of an object literal and no [return]
    without argument — no object is resolved, [definedStyles] and
    [usedStyles] stay as they are, and the call still sends one
    diagnostic for every key already in [definedStyles] that is not in
    [usedStyles]; it sends none exactly when it finds no such key, as
    when [definedStyles] is empty or every defined key is used. (A block
    body with a [return] without argument at its top level is not among
    these calls.) *)
Theorem unresolved_call_reports_pending
    (callee : AST.node) (arguments parents : list AST.node) (st : state) :
  AST.name callee = Some "withStyles" →
  isCSSFound (recordRequire findRequire (AST.CallExpression callee arguments)
                parents st) = true →
  resolvesNothing (head arguments) = true →
  ∃ st', CallExpression findRequire (AST.CallExpression callee arguments)
           parents st = Ok st'
         ∧ stylesObjOf (head arguments) = Ok None
         ∧ definedStyles st' = definedStyles st
         ∧ usedStyles st' = usedStyles st
         ∧ reports st'
           = reports st ++ unusedEntries (usedStyles st) (definedStyles st)
         ∧ (Forall (λ entry, has (usedStyles st) entry.1 = true)
              (definedStyles st) → reports st' = reports st).
Proof.
  intros Hcallee Hfound Hnone. apply resolvesNothing_spec in Hnone.
  set (st1 := recordRequire findRequire (AST.CallExpression callee arguments)
                parents st) in *.
  assert (Hdef : definedStyles st1 = definedStyles st
                 ∧ usedStyles st1 = usedStyles st ∧ reports st1 = reports st).
  { unfold st1, recordRequire. by destruct (findRequire _ _). }
  destruct Hdef as (Hd & Hu & Hr).
  exists (reportUnused st1). split.
  - unfold CallExpression. fold st1. rewrite Hfound. simpl.
    rewrite bool_decide_eq_true_2 by done.
    by rewrite (extractStyles_unresolved _ _ Hnone).
  - split; [done|]. rewrite reportUnused_spec. simpl. rewrite Hd, Hu, Hr.
    repeat split; try done.
    intros Hall. rewrite (unusedEntries_all_used _ _ Hall). apply app_nil_r.
Qed.

End DiffAtEveryCall.

(** ** Who writes [cssFromWithStylesName] *)

Lemma defineProperty_name (st st' : state) (property : AST.node) :
  defineProperty st property = Ok st' →
  cssFromWithStylesName st' = cssFromWithStylesName st.
Proof.
  unfold defineProperty. destruct (AST.computed property).
  - by intros [= <-].
  - destruct property; simpl; try discriminate; by intros [= <-].
Qed.

Lemma defineProperties_name (properties : list AST.node) (st st' : state) :
  forEach defineProperty properties st = Ok st' →
  cssFromWithStylesName st' = cssFromWithStylesName st.
Proof.
  revert st. induction properties as [|property properties IH]; intros st; simpl.
  - by intros [= <-].
  - destruct (defineProperty st property) as [st1|] eqn:Hp; [|done]. simpl.
    intros Hrest. rewrite (IH _ Hrest). by apply defineProperty_name in Hp.
Qed.

Lemma extractStyles_name (styles : option AST.node) (st st' : state) :
  extractStyles styles st = Ok st' →
  cssFromWithStylesName st' = cssFromWithStylesName st.
Proof.
  destruct styles as [styles|]; [|by intros [= <-]].
  destruct styles; try by intros [= <-].
  simpl. destruct (findStylesObj styles) as [[obj|]|]; simpl;
    [|by intros [= <-]|done].
  destruct (AST.properties obj) as [properties|]; [|done].
  apply defineProperties_name.
Qed.

Section NameUpdates.

Variable findImport findRequire : AST.node → list AST.node → option string.

(** C4, as the code has it. Once [cssFromWithStylesName] holds a name,
    an import declaration never changes it (the callback returns before
    it asks the detector), and a member access never does; but every
    call expression at which the require detector answers writes that
    answer over it, so the last require detection wins. *)
Theorem name_kept_by_import_overwritten_by_require
    (node : AST.node) (parents : list AST.node) (st : state) :
  isCSSFound st = true →
  ImportDeclaration findImport node parents st = Ok st
  ∧ (∀ st', MemberExpression node parents st = Ok st' →
            cssFromWithStylesName st' = cssFromWithStylesName st)
  ∧ cssFromWithStylesName (recordRequire findRequire node parents st)
    = nameAfterRequire findRequire node parents st
  ∧ (∀ st', CallExpression findRequire node parents st = Ok st' →
            cssFromWithStylesName st' = nameAfterRequire findRequire node parents st).
Proof.
  intros Hfound. split; [|split; [|split]].
  - unfold ImportDeclaration. by rewrite Hfound.
  - intros st'. unfold MemberExpression.
    destruct (memberExpressionExit node parents st) as [e|]; [|done].
    simpl. intros [= <-].
    destruct e; simpl; try done; unfold useStyle; by destruct (truthy style).
  - unfold recordRequire, nameAfterRequire. by destruct (findRequire _ _).
  - intros st'. unfold CallExpression. cbv zeta.
    assert (Hname : cssFromWithStylesName
                      (recordRequire findRequire node parents st)
                    = nameAfterRequire findRequire node parents st).
    { unfold recordRequire, nameAfterRequire. by destruct (findRequire _ _). }
    destruct (isCSSFound (recordRequire _ _ _ _)); simpl; [|by intros [= <-]].
    destruct node; try done.
    destruct (bool_decide _); [|by intros [= <-]].
    destruct (extractStyles _ _) as [st1|] eqn:Hextract; [|done].
    simpl. intros [= <-]. rewrite reportUnused_spec. simpl.
    by rewrite (extractStyles_name _ _ _ Hextract).
Qed.

End NameUpdates.

(** ** Member accesses that mark a style as used *)

(** C6, as the code has it. With the gate open, a member access whose
    object is the identifier [styles] resolves its property with
    [getBasicIdentifier] and, when the resolved value is truthy, assigns
    [true] in [usedStyles] under the key that value converts to (a
    string is its own key, a number the string JavaScript converts it
    to): the key becomes an own key unless it is [__proto__]. A falsy
    value — [null] from a template literal with interpolations or from
    any other shape, the empty string, [0], [false] — adds nothing, and
    the state is unchanged. *)
Theorem direct_access_marks_truthy_key
    (property : AST.node) (computed : bool) (parents : list AST.node)
    (st : state) :
  isCSSFound st = true →
  ∃ st', MemberExpression
           (AST.MemberExpression (AST.Identifier "styles") property computed)
           parents st = Ok st'
         ∧ (truthy (getBasicIdentifier property) = true →
            toPropertyKey (getBasicIdentifier property) ≠ "__proto__" →
            usedStyles st'
            = {[ toPropertyKey (getBasicIdentifier property) ]} ∪ usedStyles st
            ∧ has (usedStyles st') (toPropertyKey (getBasicIdentifier property))
              = true)
         ∧ (truthy (getBasicIdentifier property) = false → st' = st)
         ∧ (toPropertyKey (getBasicIdentifier property) = "__proto__" →
            st' = st)
         ∧ (∀ quasi0 rest, property = AST.TemplateLiteral quasi0 rest →
                           rest ≠ [] →
                           getBasicIdentifier property = AST.VNull ∧ st' = st).
Proof.
  intros Hfound.
  exists (useStyle (getBasicIdentifier property) st). split.
  { unfold MemberExpression, memberExpressionExit. by rewrite Hfound. }
  unfold useStyle. split; [|split; [|split]].
  - intros -> Hkey. unfold setUsed, markUsed; simpl.
    rewrite bool_decide_eq_false_2 by done. split; [done|].
    unfold has. apply bool_decide_eq_true_2. set_solver.
  - by intros ->.
  - intros Hkey. destruct (truthy _); [|done].
    unfold setUsed, markUsed. rewrite bool_decide_eq_true_2 by done.
    by destruct st.
  - intros quasi0 rest -> Hrest. simpl.
    rewrite bool_decide_eq_false_2; simpl; [done|].
    by destruct rest.
Qed.


(** ** The chain through [this.props] *)

Lemma memberExpression_exit (node : AST.node) (parents : list AST.node)
    (st : state) (e : memberExit) :
  memberExpressionExit node parents st = Ok e →
  MemberExpression node parents st = Ok (applyExit e st).
Proof. unfold MemberExpression. by intros ->. Qed.

Lemma isCSSFound_setUsed (k : string) (st : state) :
  isCSSFound (setUsed k st) = isCSSFound st.
Proof. done. Qed.

(** [x.k] with [x] not the identifier [styles] and [k] not [styles]:
    line 142. *)
Lemma exit_other_property (object : AST.node) (k : string) (computed : bool)
    (parents : list AST.node) (st : state) :
  isCSSFound st = true → AST.name object ≠ Some "styles" →
  k ≠ "" → k ≠ "styles" →
  memberExpressionExit (AST.MemberExpression object (AST.Identifier k) computed)
    parents st = Ok PropertyNotStyles.
Proof.
  intros Hfound Hobject Hk Hstyles. unfold memberExpressionExit.
  rewrite Hfound. simpl.
  rewrite (bool_decide_eq_false_2 _ Hobject). simpl.
  rewrite (bool_decide_eq_false_2 _ Hk). simpl.
  by rewrite (bool_decide_eq_false_2 _ Hstyles).
Qed.


Section PropsChain.

Variable findImport findRequire : AST.node → list AST.node → option string.


End PropsChain.


(** C1 at the input where the code departs from it. A property whose key
    is a string literal has no [key.name]: line 101 stores it under
    ["undefined"], whatever the literal says. In the file
    [import { css } from 'react-with-styles'; styles['foo'];
     withStyles(() => ({ 'foo': {} }));] the style ['foo'] is used, yet
    [definedStyles] holds the single key ["undefined"] and the call
    reports [Style `undefined` is unused]. *)
Theorem literal_key_stored_as_undefined :
  (∀ (s : string) (val : AST.node) (st : state),
     defineProperty st (AST.Property (AST.Literal (AST.VString s)) val false)
     = Ok (setDefined "undefined"
             (AST.Property (AST.Literal (AST.VString s)) val false) st))
  ∧ getBasicIdentifier (AST.Literal (AST.VString "foo")) = AST.VString "foo"
  ∧ ∃ st, lintFile File.quotedKey = Ok st
          ∧ definedStyles st = [("undefined", File.quotedFoo)]
          ∧ has (usedStyles st) "foo" = true
          ∧ reports st = [(File.quotedFoo, "Style `undefined` is unused")].
Proof.
  split; [done|]. split; [done|].
  eexists. split; [vm_compute; reflexivity|]. by vm_compute.
Qed.

(** An identifier key is stored under its name, and a later property of
    the same name takes the place of the earlier one. *)
Lemma get_assign {V : Type} (k : string) (v : V) (o : list (string * V)) :
  get (assign k v o) k = Some v.
Proof.
  induction o as [|[k' v'] o IH]; simpl.
  - by rewrite bool_decide_eq_true_2.
  - destruct (decide (k' = k)) as [->|Hne].
    + rewrite bool_decide_eq_true_2 by done. simpl.
      by rewrite bool_decide_eq_true_2.
    + rewrite bool_decide_eq_false_2 by done. simpl.
      by rewrite bool_decide_eq_false_2.
Qed.

Lemma identifier_key_stored_under_name (x : string) (val : AST.node)
    (st : state) :
  x ≠ "__proto__" →
  ∃ st', defineProperty st (AST.Property (AST.Identifier x) val false) = Ok st'
         ∧ get (definedStyles st') x
           = Some (AST.Property (AST.Identifier x) val false).
Proof.
  intros Hproto. eexists. split; [done|]. simpl. unfold define.
  rewrite bool_decide_eq_false_2 by done. apply get_assign.
Qed.

(** C2 fails at [withStyles()] after [withStyles(() => ({ a: {} }))]: the
    second call has no first argument, no definitions object is resolved,
    and it reports the unused [a] a second time. *)
Lemma unresolved_call_repeats_diagnostic :
  lintFile File.oneUnused = Ok File.afterOneUnused
  ∧ stylesObjOf (head ([] : list AST.node)) = Ok None
  ∧ (∃ st', CallExpression detectRequire File.bareCall
              [AST.ExpressionStatement File.bareCall; File.thenBareCall]
              File.afterOneUnused = Ok st'
            ∧ reports st'
              = reports File.afterOneUnused
                ++ [(Sample.rule "a", "Style `a` is unused")])
  ∧ ∃ st, lintFile File.thenBareCall = Ok st
          ∧ reports st = [(Sample.rule "a", "Style `a` is unused");
                          (Sample.rule "a", "Style `a` is unused")].
Proof.
  split; [by vm_compute|]. split; [done|]. split.
  - eexists. split; [vm_compute; reflexivity|]. by vm_compute.
  - eexists. split; [vm_compute; reflexivity|]. by vm_compute.
Qed.

Lemma unresolved_call_reports_pending_witness :
  ∃ st', CallExpression detectRequire File.bareCall [] File.afterOneUnused
         = Ok st'
         ∧ stylesObjOf (head ([] : list AST.node)) = Ok None
         ∧ definedStyles st' = definedStyles File.afterOneUnused
         ∧ usedStyles st' = usedStyles File.afterOneUnused
         ∧ reports st'
           = reports File.afterOneUnused
             ++ unusedEntries (usedStyles File.afterOneUnused)
                  (definedStyles File.afterOneUnused)
         ∧ (Forall (λ entry, has (usedStyles File.afterOneUnused) entry.1 = true)
              (definedStyles File.afterOneUnused) →
            reports st' = reports File.afterOneUnused).
Proof.
  apply (unresolved_call_reports_pending detectRequire
           (AST.Identifier "withStyles") [] [] File.afterOneUnused);
    reflexivity.
Defined.

(** [withStyles(() => { return; })] is not among the calls that resolve
    nothing: there the callback throws before the diff. *)
Example bare_return_call_throws_before_diff :
  resolvesNothing
    (Some (AST.ArrowFunctionExpression []
             (AST.BlockStatement [AST.ReturnStatement None]))) = false
  ∧ CallExpression detectRequire
      (Sample.withStylesOf (AST.BlockStatement [AST.ReturnStatement None]))
      [] File.afterOneUnused = TypeError.
Proof. split; by vm_compute. Qed.

(** C3 at the input where the code departs from it. In
    [import { css } from 'react-with-styles'; withStyles(() => { return; });]
    the loop of lines 75-82 reads [bodyNode.argument.type] with
    [argument] being [null]: a [TypeError] ends the walk. *)
Theorem bare_return_throws :
  findStylesObj (AST.BlockStatement [AST.ReturnStatement None]) = TypeError
  ∧ lintFile File.bareReturn = TypeError.
Proof. split; by vm_compute. Qed.

(** C8 at the input where the code departs from it. In the block
    [{ return { a: {} }; return; }] the last top-level [return] of an
    object literal is the first statement, but the scan goes on to the bare
    [return] and throws there, as it does on a lone bare [return]: no
    object comes out and the walk ends in a [TypeError]. *)
Theorem bare_return_after_object_return_throws :
  lastObjectReturned File.objectThenBareReturn
  = Some (AST.ObjectExpression [Sample.rule "a"])
  ∧ findStylesObj (AST.BlockStatement File.objectThenBareReturn) = TypeError
  ∧ lintFile File.returnTwice = TypeError.
Proof. repeat split; by vm_compute. Qed.

(** A property node without a [key], such as the [SpreadElement] that
    later parsers emit for [{ ...shared }], makes line 101 throw as well. *)
Example property_without_key_throws (argument : AST.node) (st : state) :
  defineProperty st (AST.SpreadElement argument) = TypeError.
Proof. reflexivity. Qed.

(** The scan does not stop at the first match. *)
Example scan_two_object_returns :
  findStylesObj (AST.BlockStatement File.twoObjectReturns)
  = Ok (Some (AST.ObjectExpression [Sample.rule "b"])).
Proof. reflexivity. Qed.

(** C4 fails at a second [require]: after
    [const { css: css } = require('react-with-styles');] the name is
    [css], and [const { css: c2 } = require('react-with-styles');] after
    it changes the name to [c2]. *)
Lemma second_require_renames :
  (∃ st, lintFile File.requireOnce = Ok st
         ∧ cssFromWithStylesName st = Some "css")
  ∧ (∃ st, lintFile File.requireTwice = Ok st
           ∧ cssFromWithStylesName st = Some "c2")
  ∧ ∃ st, CallExpression detectRequire File.requireCall [File.declaratorC2]
            Sample.found = Ok st
          ∧ cssFromWithStylesName Sample.found = Some "css"
          ∧ cssFromWithStylesName st = Some "c2".
Proof.
  split; [|split]; eexists; (split; [vm_compute; reflexivity|]); by vm_compute.
Qed.

Lemma name_kept_by_import_overwritten_by_require_witness :
  isCSSFound Sample.found = true
  ∧ ImportDeclaration detectImport File.requireCall [File.declaratorC2]
      Sample.found = Ok Sample.found
  ∧ (∀ st', MemberExpression File.requireCall [File.declaratorC2] Sample.found
            = Ok st' →
            cssFromWithStylesName st' = cssFromWithStylesName Sample.found)
  ∧ cssFromWithStylesName
      (recordRequire detectRequire File.requireCall [File.declaratorC2]
         Sample.found)
    = nameAfterRequire detectRequire File.requireCall [File.declaratorC2]
        Sample.found
  ∧ (∀ st', CallExpression detectRequire File.requireCall [File.declaratorC2]
              Sample.found = Ok st' →
            cssFromWithStylesName st'
            = nameAfterRequire detectRequire File.requireCall
                [File.declaratorC2] Sample.found).
Proof.
  split; [reflexivity|].
  apply (name_kept_by_import_overwritten_by_require detectImport detectRequire
           File.requireCall [File.declaratorC2] Sample.found).
  reflexivity.
Defined.

Example require_after_found_gives_c2 :
  nameAfterRequire detectRequire File.requireCall [File.declaratorC2]
    Sample.found = Some "c2".
Proof. reflexivity. Qed.

Lemma no_detection_no_diagnostics_witness :
  Forall (undetected detectImport detectRequire)
    (AST.visits [] File.withoutImport)
  ∧ ∃ st, lintFile File.withoutImport = Ok st ∧ reports st = [] ∧ st = initial.
Proof.
  assert (Hnone : Forall (undetected detectImport detectRequire)
                    (AST.visits [] File.withoutImport)).
  { repeat constructor. }
  split; [exact Hnone|].
  exact (no_detection_no_diagnostics detectImport detectRequire
           File.withoutImport Hnone).
Defined.

Lemma member_access_before_detection_witness :
  cssFromWithStylesName initial = None
  ∧ ∃ st', MemberExpression (Sample.stylesDot "a") [] initial = Ok st'
           ∧ st' = initial
           ∧ usedStyles st' = usedStyles initial
           ∧ ∀ vs, run detectImport detectRequire vs st'
                   = run detectImport detectRequire vs initial.
Proof.
  split; [reflexivity|].
  apply (member_access_before_detection detectImport detectRequire
           (Sample.stylesDot "a") [] initial).
  reflexivity.
Defined.

(** A use of [styles.a] ahead of the import is lost: the later call
    reports [a]. *)
Example use_before_import_is_lost :
  ∃ st, lintFile File.usedBeforeImport = Ok st
        ∧ has (usedStyles st) "a" = false
        ∧ reports st = [(Sample.rule "a", "Style `a` is unused")].
Proof. eexists. split; [vm_compute; reflexivity|]. by vm_compute. Qed.

(** C6 fails at [styles['']]: the property is a literal, its value the
    empty string is what [getBasicIdentifier] returns, and [if (style)]
    then skips the assignment: [usedStyles] has no key [""]. *)
Lemma empty_key_not_marked :
  isCSSFound Sample.found = true
  ∧ getBasicIdentifier (AST.Literal (AST.VString "")) = AST.VString ""
  ∧ ∃ st', MemberExpression File.stylesEmptyKey [] Sample.found = Ok st'
           ∧ has (usedStyles st') "" = false.
Proof.
  split; [done|]. split; [done|].
  eexists. split; [vm_compute; reflexivity|]. by vm_compute.
Qed.

Lemma direct_access_marks_truthy_key_witness :
  isCSSFound Sample.found = true
  ∧ ∃ st', MemberExpression (Sample.stylesDot "foo") [] Sample.found = Ok st'
           ∧ usedStyles st' = {[ "foo" ]} ∪ usedStyles Sample.found
           ∧ has (usedStyles st') "foo" = true.
Proof.
  split; [reflexivity|].
  destruct (direct_access_marks_truthy_key (AST.Identifier "foo") false []
              Sample.found eq_refl) as (st' & Hrun & Hmark & _).
  exists st'. split; [exact Hrun|].
  apply Hmark; [reflexivity|discriminate].
Defined.

(** The three spellings [styles.foo], [styles['foo']] and [styles[`foo`]]
    resolve to [foo]; [styles[`foo${bar}`]] resolves to [null]. *)
Example resolved_spellings :
  getBasicIdentifier (AST.Identifier "foo") = AST.VString "foo"
  ∧ getBasicIdentifier (AST.Literal (AST.VString "foo")) = AST.VString "foo"
  ∧ getBasicIdentifier (AST.TemplateLiteral "foo" []) = AST.VString "foo"
  ∧ getBasicIdentifier (AST.TemplateLiteral "foo" [(AST.Identifier "bar", "")])
    = AST.VNull.
Proof. repeat split. Qed.

(** Numbers as keys: [styles[1e21]] marks ["1e+21"], [styles[0.5]] marks
    ["0.5"], and [styles[0]] marks nothing. *)
Example numeric_keys :
  (∃ st', MemberExpression
            (AST.MemberExpression (AST.Identifier "styles")
               (AST.Literal (AST.VNumber "1e+21")) true) [] Sample.found
          = Ok st'
          ∧ has (usedStyles st') "1e+21" = true)
  ∧ (∃ st', MemberExpression
              (AST.MemberExpression (AST.Identifier "styles")
                 (AST.Literal (AST.VNumber "0.5")) true) [] Sample.found
            = Ok st'
            ∧ has (usedStyles st') "0.5" = true)
  ∧ MemberExpression
      (AST.MemberExpression (AST.Identifier "styles")
         (AST.Literal (AST.VNumber "0")) true) [] Sample.found
    = Ok Sample.found.
Proof.
  split; [|split]; [eexists; split; [vm_compute; reflexivity|by vm_compute]..|].
  by vm_compute.
Qed.



(** C9 at the input where the code departs from it. In
    [import { css } from 'react-with-styles';
     withStyles(() => ({ a: {}, b: {} })); styles.a;] the diff runs when
    the call is entered, before [styles.a] has been visited: two
    diagnostics are sent, for [a] and for [b], although [a] ends up in
    [usedStyles]. *)
Theorem usage_after_call_reported :
  ∃ st, lintFile File.usedAfterwards = Ok st
        ∧ has (usedStyles st) "a" = true
        ∧ reports st = [(Sample.rule "a", "Style `a` is unused");
                        (Sample.rule "b", "Style `b` is unused")].
Proof. eexists. split; [vm_compute; reflexivity|]. by vm_compute. Qed.

(** With [styles.a] ahead of the call, [b] alone is reported. *)
Example usage_before_call_counted :
  ∃ st, lintFile File.usedBefore = Ok st
        ∧ reports st = [(Sample.rule "b", "Style `b` is unused")].
Proof. eexists. split; [vm_compute; reflexivity|]. by vm_compute. Qed.

(** ** The object kept as a list of entries *)

Lemma keys_assign {V : Type} (k : string) (v : V) (o : list (string * V)) :
  (assign k v o).*1 = if decide (k ∈ o.*1) then o.*1 else o.*1 ++ [k].
Proof.
  induction o as [|[k' v'] o IH].
  - cbn [assign fmap list_fmap fst app]. case_decide; [set_solver|done].
  - cbn [assign]. destruct (decide (k' = k)) as [->|Hne].
    + rewrite bool_decide_eq_true_2 by done. cbn [fmap list_fmap fst].
      clear IH. case_decide; [done|set_solver].
    + rewrite bool_decide_eq_false_2 by done. cbn [fmap list_fmap fst app].
      fold (fmap (M:=list) (@fst string V)). rewrite IH. clear IH.
      destruct (decide (k ∈ o.*1)) as [Hin|Hout].
      * rewrite decide_True; [done|]. by apply list_elem_of_further.
      * rewrite decide_False; [done|].
        intros [Heq|Hin]%elem_of_cons; [by subst|done].
Qed.

Lemma get_assign_ne {V : Type} (k k' : string) (v : V) (o : list (string * V)) :
  k' ≠ k → get (assign k v o) k' = get o k'.
Proof.
  intros Hne. induction o as [|[k0 v0] o IH]; simpl.
  - by rewrite bool_decide_eq_false_2.
  - destruct (decide (k0 = k)) as [->|Hk].
    + rewrite bool_decide_eq_true_2 by done. simpl.
      by rewrite !bool_decide_eq_false_2 by done.
    + rewrite bool_decide_eq_false_2 by done. simpl.
      destruct (bool_decide (k0 = k')); [done|apply IH].
Qed.

Lemma keys_define_subseteq {V : Type} (k : string) (v : V)
    (o : list (string * V)) :
  o.*1 ⊆ (define k v o).*1.
Proof.
  unfold define. destruct (bool_decide _); [done|].
  rewrite keys_assign. case_decide; [done|].
  intros x Hx. apply elem_of_app. by left.
Qed.

Lemma NoDup_keys_define {V : Type} (k : string) (v : V)
    (o : list (string * V)) :
  NoDup o.*1 → NoDup (define k v o).*1.
Proof.
  intros Hnodup. unfold define. destruct (bool_decide _); [done|].
  rewrite keys_assign. case_decide as Hout; [done|].
  apply NoDup_app. split; [done|]. split; [|apply NoDup_singleton].
  intros x Hx Hk. apply list_elem_of_singleton in Hk. by subst.
Qed.

(** ** The properties of a definitions object (lines 86-102) *)

Lemma defineProperty_spec (st : state) (property : AST.node) :
  defineProperty st property
  = if throwingProperty property then TypeError
    else Ok (match recordedKey property with
             | Some k => setDefined k property st
             | None => st
             end).
Proof.
  unfold defineProperty, throwingProperty, recordedKey.
  destruct (AST.computed property); [done|]. by destruct property.
Qed.

Lemma defineProperties_throw (properties : list AST.node) (st : state) :
  existsb throwingProperty properties = true →
  forEach defineProperty properties st = TypeError.
Proof.
  revert st. induction properties as [|property properties IH]; intros st;
    [done|].
  simpl. rewrite defineProperty_spec.
  destruct (throwingProperty property); [done|]. simpl. apply IH.
Qed.

(** What the loop leaves alone, and what it does to [definedStyles]. *)
Lemma defineProperties_ok (properties : list AST.node) (st : state) :
  existsb throwingProperty properties = false →
  ∃ st', forEach defineProperty properties st = Ok st'
         ∧ cssFromWithStylesName st' = cssFromWithStylesName st
         ∧ usedStyles st' = usedStyles st
         ∧ reports st' = reports st
         ∧ (definedStyles st).*1 ⊆ (definedStyles st').*1
         ∧ (NoDup (definedStyles st).*1 → NoDup (definedStyles st').*1).
Proof.
  revert st. induction properties as [|property properties IH]; intros st.
  - intros _. by exists st.
  - simpl. rewrite defineProperty_spec.
    destruct (throwingProperty property); [done|]. simpl. intros Hrest.
    destruct (recordedKey property) as [k|].
    + destruct (IH (setDefined k property st) Hrest)
        as (st' & Hrun & Hname & Hused & Hreports & Hkeys & Hnodup).
      exists st'. repeat split; try done.
      * etrans; [|exact Hkeys]. apply keys_define_subseteq.
      * intros Hst. apply Hnodup. by apply NoDup_keys_define.
    + apply (IH st Hrest).
Qed.

(** X1. When no property makes line 101 throw, the loop over the
    properties ends normally, and afterwards [definedStyles[x]] is the last
    property of the object that is stored under [x] — a non-computed,
    non-spread property whose [key.name] is [x], or whose key has no
    name when [x] is ["undefined"] — and is what it was before when there
    is none. Nothing is ever stored under [__proto__]. *)
Theorem defined_last_wins
    (properties : list AST.node) (st : state) (x : string) :
  existsb throwingProperty properties = false →
  ∃ st', forEach defineProperty properties st = Ok st'
         ∧ get (definedStyles st') x
           = match (if bool_decide (x = "__proto__") then None
                    else last (filter (λ p, recordedKey p = Some x)
                                 properties)) with
             | Some property => Some property
             | None => get (definedStyles st) x
             end.
Proof.
  revert st. induction properties as [|property properties IH]; intros st.
  - intros _. exists st. split; [done|]. by destruct (bool_decide _).
  - simpl. rewrite defineProperty_spec.
    destruct (throwingProperty property); [done|]. simpl. intros Hrest.
    destruct (bool_decide (x = "__proto__")) eqn:Hproto.
    + apply bool_decide_eq_true_1 in Hproto. subst x.
      destruct (recordedKey property) as [k|].
      * destruct (IH (setDefined k property st) Hrest) as (st' & Hrun & Hget).
        exists st'. split; [done|]. rewrite Hget. simpl. unfold define.
        destruct (bool_decide (k = "__proto__")) eqn:Hk; [done|].
        apply bool_decide_eq_false_1 in Hk. by apply get_assign_ne.
      * apply (IH st Hrest).
    + apply bool_decide_eq_false_1 in Hproto.
      destruct (recordedKey property) as [k|] eqn:Hkey.
      * destruct (IH (setDefined k property st) Hrest) as (st' & Hrun & Hget).
        exists st'. split; [done|]. rewrite Hget.
        destruct (decide (k = x)) as [->|Hne].
        -- rewrite filter_cons_True by done. rewrite last_cons.
           destruct (last _); [done|]. simpl. unfold define.
           rewrite bool_decide_eq_false_2 by done. apply get_assign.
        -- rewrite filter_cons_False by congruence.
           destruct (last _); [done|]. simpl. unfold define.
           destruct (bool_decide (k = "__proto__")); [done|].
           by apply get_assign_ne.
      * rewrite filter_cons_False by congruence. apply (IH st Hrest).
Qed.

(** ** The scan of a block body (lines 74-83) *)

(** X2. For every block body, the scan throws exactly when some
    top-level statement is a [return] without argument, and otherwise
    yields the argument of the last top-level [return] of an object
    literal (nothing when there is none). *)
Theorem scan_block_spec (statements : list AST.node) :
  findStylesObj (AST.BlockStatement statements)
  = if existsb isBareReturn statements then TypeError
    else Ok (lastObjectReturned statements).
Proof.
  simpl. rewrite scan_from_spec. destruct (existsb _ _); [done|].
  by destruct (lastObjectReturned statements).
Qed.

(** ** The first argument of [withStyles] (lines 66-104) *)

Lemma extractStyles_throws (styles : option AST.node) (st : state) :
  extractionThrows styles = true → extractStyles styles st = TypeError.
Proof.
  destruct styles as [styles|]; [|done].
  destruct styles as [| | | | | | | | | | | | | | | |params body| | | | | |];
    try done.
  destruct body; try done; cbn [extractionThrows].
  - intros Hthrow. unfold extractStyles, findStylesObj. rewrite scan_from_spec.
    destruct (existsb isBareReturn body); [done|]. simpl in *.
    destruct (lastObjectReturned body) as [obj|]; [|done].
    destruct (AST.properties obj) as [properties|]; [|done].
    by apply defineProperties_throw.
  - intros Hthrow. simpl. by apply defineProperties_throw.
Qed.

Lemma extractStyles_ok (styles : option AST.node) (st : state) :
  extractionThrows styles = false →
  ∃ st', extractStyles styles st = Ok st'
         ∧ cssFromWithStylesName st' = cssFromWithStylesName st
         ∧ usedStyles st' = usedStyles st
         ∧ reports st' = reports st
         ∧ (definedStyles st).*1 ⊆ (definedStyles st').*1
         ∧ (NoDup (definedStyles st).*1 → NoDup (definedStyles st').*1).
Proof.
  assert (Hsame : ∃ st', Ok st = Ok st'
            ∧ cssFromWithStylesName st' = cssFromWithStylesName st
            ∧ usedStyles st' = usedStyles st
            ∧ reports st' = reports st
            ∧ (definedStyles st).*1 ⊆ (definedStyles st').*1
            ∧ (NoDup (definedStyles st).*1 → NoDup (definedStyles st').*1)).
  { by exists st. }
  destruct styles as [styles|]; [|done].
  destruct styles as [| | | | | | | | | | | | | | | |params body| | | | | |];
    try done.
  destruct body; try done; cbn [extractionThrows].
  - intros Hsafe. unfold extractStyles, findStylesObj. rewrite scan_from_spec.
    destruct (existsb isBareReturn body); [done|]. simpl in *.
    destruct (lastObjectReturned body) as [obj|]; [|done].
    destruct (AST.properties obj) as [properties|]; [|done].
    by apply defineProperties_ok.
  - intros Hsafe. simpl. by apply defineProperties_ok.
Qed.

(** ** What one callback does to the state *)

Lemma elem_of_unusedEntries (used : gset string)
    (defined : list (string * AST.node)) (n : AST.node) (message : string) :
  (n, message) ∈ unusedEntries used defined
  ↔ ∃ k, (k, n) ∈ defined ∧ (k ∉ used) ∧ message = unusedMessage k.
Proof.
  induction defined as [|[k' n'] defined IH]; simpl.
  - split; [by intros ?%elem_of_nil|].
    by intros (k & ?%elem_of_nil & _).
  - unfold has. destruct (decide (k' ∈ used)) as [Hin|Hout].
    + rewrite bool_decide_eq_true_2 by done. rewrite IH. split.
      * intros (k & Hk & Hused & ->). exists k.
        split; [by apply list_elem_of_further|done].
      * intros (k & [Heq|Hk]%elem_of_cons & Hused & ->).
        -- by simplify_eq.
        -- by exists k.
    + rewrite bool_decide_eq_false_2 by done. rewrite elem_of_cons, IH.
      split.
      * intros [Heq|(k & Hk & Hused & ->)].
        -- simplify_eq. exists k'. split; [apply list_elem_of_here|done].
        -- exists k. split; [by apply list_elem_of_further|done].
      * intros (k & [Heq|Hk]%elem_of_cons & Hused & ->).
        -- simplify_eq. by left.
        -- right. by exists k.
Qed.

Lemma grows_refl (st : state) : grows st st.
Proof. by repeat split. Qed.

Lemma grows_trans (st1 st2 st3 : state) :
  grows st1 st2 → grows st2 st3 → grows st1 st3.
Proof.
  intros (Hu1 & Hd1 & Hr1) (Hu2 & Hd2 & Hr2).
  repeat split; by etrans.
Qed.

Lemma reportsDefined_reportUnused (st : state) :
  reportsDefined st → reportsDefined (reportUnused st).
Proof.
  unfold reportsDefined. rewrite reportUnused_spec. simpl.
  intros Hold. apply Forall_app. split; [done|].
  apply Forall_forall. intros [n message] Hin.
  apply elem_of_unusedEntries in Hin as (k & Hk & _ & ->).
  exists k. split; [done|].
  apply list_elem_of_fmap. by exists (k, n).
Qed.

Lemma reportsDefined_keys (st st' : state) :
  reports st' = reports st →
  (definedStyles st).*1 ⊆ (definedStyles st').*1 →
  reportsDefined st → reportsDefined st'.
Proof.
  unfold reportsDefined. intros -> Hkeys Hold.
  eapply Forall_impl; [exact Hold|].
  intros r (k & Hmessage & Hk). exists k. split; [done|]. by apply Hkeys.
Qed.

Section Callbacks.

Variable findImport findRequire : AST.node → list AST.node → option string.

Lemma recordRequire_same (node : AST.node) (parents : list AST.node)
    (st : state) :
  usedStyles (recordRequire findRequire node parents st) = usedStyles st
  ∧ definedStyles (recordRequire findRequire node parents st)
    = definedStyles st
  ∧ reports (recordRequire findRequire node parents st) = reports st.
Proof. unfold recordRequire. by destruct (findRequire _ _). Qed.

(** X3. The callback for a call expression throws exactly when the gate
    is open after lines 53-56, the callee is the identifier [withStyles]
    and the first argument is an arrow function whose block body has a
    bare [return] at its top level or whose definitions object has a
    property that is neither computed nor an [ExperimentalSpreadProperty]
    and has no [key]. *)
Theorem call_throws_iff (callee : AST.node) (arguments parents : list AST.node)
    (st : state) :
  CallExpression findRequire (AST.CallExpression callee arguments) parents st
  = TypeError
  ↔ isCSSFound (recordRequire findRequire
                  (AST.CallExpression callee arguments) parents st) = true
    ∧ AST.name callee = Some "withStyles"
    ∧ extractionThrows (head arguments) = true.
Proof.
  unfold CallExpression. cbv zeta.
  set (st1 := recordRequire _ _ _ _).
  destruct (isCSSFound st1); simpl; [|by split; [|intros (? & _)]].
  destruct (decide (AST.name callee = Some "withStyles")) as [Hcallee|Hother].
  - rewrite bool_decide_eq_true_2 by done.
    destruct (extractionThrows (head arguments)) eqn:Hthrow.
    + by rewrite (extractStyles_throws _ _ Hthrow).
    + destruct (extractStyles_ok (head arguments) st1 Hthrow) as (st' & -> & _).
      simpl. by split; [|intros (_ & _ & ?)].
  - rewrite bool_decide_eq_false_2 by done.
    by split; [|intros (_ & ? & _)].
Qed.

(** X4. A [withStyles] call entered with the gate open, on which the
    extraction does not throw, leaves [usedStyles] as it is and sends, after
    the diagnostics sent before, exactly one diagnostic per entry of
    [definedStyles] (as the call leaves it, in its order) whose key is
    not in [usedStyles]: anchored at the entry's node, with the message
    for its key. *)
Theorem withStyles_call_diff
    (callee : AST.node) (arguments parents : list AST.node) (st : state) :
  AST.name callee = Some "withStyles" →
  isCSSFound (recordRequire findRequire (AST.CallExpression callee arguments)
                parents st) = true →
  extractionThrows (head arguments) = false →
  ∃ st', CallExpression findRequire (AST.CallExpression callee arguments)
           parents st = Ok st'
         ∧ usedStyles st' = usedStyles st
         ∧ reports st'
           = reports st ++ unusedEntries (usedStyles st) (definedStyles st')
         ∧ ∀ n message,
             (n, message) ∈ unusedEntries (usedStyles st) (definedStyles st')
             ↔ ∃ k, (k, n) ∈ definedStyles st' ∧ (k ∉ usedStyles st)
                    ∧ message = unusedMessage k.
Proof.
  intros Hcallee Hfound Hsafe. unfold CallExpression. cbv zeta.
  destruct (recordRequire_same (AST.CallExpression callee arguments) parents st)
    as (Hu & Hd & Hr).
  set (st1 := recordRequire _ _ _ _) in *. rewrite Hfound. simpl.
  rewrite bool_decide_eq_true_2 by done.
  destruct (extractStyles_ok (head arguments) st1 Hsafe)
    as (st2 & -> & _ & Hu2 & Hr2 & _).
  simpl. exists (reportUnused st2). split; [done|].
  rewrite reportUnused_spec. simpl. rewrite Hu2, Hr2, Hu, Hr.
  repeat split; try done; apply elem_of_unusedEntries.
Qed.

Lemma CallExpression_facts (node : AST.node) (parents : list AST.node)
    (st st' : state) :
  CallExpression findRequire node parents st = Ok st' →
  grows st st'
  ∧ (NoDup (definedStyles st).*1 → NoDup (definedStyles st').*1)
  ∧ (reportsDefined st → reportsDefined st')
  ∧ (callsWithStyles node = false →
     definedStyles st' = definedStyles st ∧ reports st' = reports st).
Proof.
  unfold CallExpression. cbv zeta.
  destruct (recordRequire_same node parents st) as (Hu & Hd & Hr).
  set (st1 := recordRequire _ _ _ _) in *.
  assert (Hst1 : grows st st1
            ∧ (NoDup (definedStyles st).*1 → NoDup (definedStyles st1).*1)
            ∧ (reportsDefined st → reportsDefined st1)
            ∧ (callsWithStyles node = false →
               definedStyles st1 = definedStyles st
               ∧ reports st1 = reports st)).
  { unfold grows, reportsDefined. by rewrite Hu, Hd, Hr. }
  destruct (isCSSFound st1); simpl; [|by intros [= <-]].
  destruct node; try done. cbn [callsWithStyles] in *.
  destruct (bool_decide _); [|by intros [= <-]].
  destruct (extractionThrows (head arguments)) eqn:Hthrow.
  { by rewrite (extractStyles_throws _ _ Hthrow). }
  destruct (extractStyles_ok (head arguments) st1 Hthrow)
    as (st2 & -> & _ & Hu2 & Hr2 & Hkeys & Hnodup).
  simpl. intros [= <-]. rewrite reportUnused_spec.
  destruct Hst1 as ((Hgu & Hgd & Hgr) & Hn1 & Hrd1 & _).
  split; [|split; [|split]]; simpl.
  - repeat split; simpl.
    + by rewrite Hu2.
    + by etrans.
    + rewrite Hr2. by apply prefix_app_r.
  - intros Hst. by apply Hnodup, Hn1.
  - intros Hst.
    pose proof (reportsDefined_reportUnused st2) as Hreport.
    rewrite reportUnused_spec in Hreport. apply Hreport.
    by apply (reportsDefined_keys st1 st2), Hrd1.
  - done.
Qed.

Lemma MemberExpression_facts (node : AST.node) (parents : list AST.node)
    (st st' : state) :
  MemberExpression node parents st = Ok st' →
  cssFromWithStylesName st' = cssFromWithStylesName st
  ∧ usedStyles st ⊆ usedStyles st'
  ∧ definedStyles st' = definedStyles st
  ∧ reports st' = reports st.
Proof.
  unfold MemberExpression.
  destruct (memberExpressionExit node parents st) as [e|]; [|done].
  simpl. intros [= <-].
  assert (Huse : ∀ style,
            cssFromWithStylesName (useStyle style st) = cssFromWithStylesName st
            ∧ usedStyles st ⊆ usedStyles (useStyle style st)
            ∧ definedStyles (useStyle style st) = definedStyles st
            ∧ reports (useStyle style st) = reports st).
  { intros style. unfold useStyle. destruct (truthy style); [|done].
    unfold setUsed, markUsed. simpl.
    destruct (bool_decide _); repeat split; try done.
    apply union_subseteq_r. }
  destruct e; simpl; by try apply Huse.
Qed.

Lemma ImportDeclaration_facts (node : AST.node) (parents : list AST.node)
    (st st' : state) :
  ImportDeclaration findImport node parents st = Ok st' →
  usedStyles st' = usedStyles st
  ∧ definedStyles st' = definedStyles st
  ∧ reports st' = reports st.
Proof.
  unfold ImportDeclaration. destruct (isCSSFound st); [by intros [= <-]|].
  destruct (findImport node parents); by intros [= <-].
Qed.

Lemma enter_facts (v : AST.located) (st st' : state) :
  enter findImport findRequire v st = Ok st' →
  grows st st'
  ∧ (NoDup (definedStyles st).*1 → NoDup (definedStyles st').*1)
  ∧ (reportsDefined st → reportsDefined st')
  ∧ (callsWithStyles v.1 = false →
     definedStyles st' = definedStyles st ∧ reports st' = reports st).
Proof.
  destruct v as [node parents]. unfold enter.
  assert (Hsame : ∀ st1 : state,
            usedStyles st ⊆ usedStyles st1 →
            definedStyles st1 = definedStyles st →
            reports st1 = reports st →
            grows st st1
            ∧ (NoDup (definedStyles st).*1 → NoDup (definedStyles st1).*1)
            ∧ (reportsDefined st → reportsDefined st1)
            ∧ (callsWithStyles (node, parents).1 = false →
               definedStyles st1 = definedStyles st
               ∧ reports st1 = reports st)).
  { intros st1 Hu Hd Hr. unfold grows, reportsDefined. by rewrite Hd, Hr. }
  destruct node; cbn [fst snd]; try (intros [= <-]; by apply Hsame).
  - intros (Hu & Hd & Hr)%ImportDeclaration_facts.
    apply Hsame; try done. by rewrite Hu.
  - intros (_ & Hu & Hd & Hr)%MemberExpression_facts. by apply Hsame.
  - apply CallExpression_facts.
Qed.

End Callbacks.

(** ** What a whole walk does to the state *)

Section Walk.

Variable findImport findRequire : AST.node → list AST.node → option string.

Lemma run_facts (vs : list AST.located) (st st' : state) :
  run findImport findRequire vs st = Ok st' →
  grows st st'
  ∧ (NoDup (definedStyles st).*1 → NoDup (definedStyles st').*1)
  ∧ (reportsDefined st → reportsDefined st')
  ∧ (Forall (λ v, callsWithStyles v.1 = false) vs →
     definedStyles st' = definedStyles st ∧ reports st' = reports st).
Proof.
  unfold run. revert st. induction vs as [|v vs IH]; intros st; simpl.
  - intros [= <-]. split; [apply grows_refl|done].
  - destruct (enter findImport findRequire v st) as [st1|] eqn:Hv; [|done].
    simpl. intros Hrest.
    apply enter_facts in Hv as (Hg1 & Hn1 & Hr1 & Hs1).
    apply IH in Hrest as (Hg2 & Hn2 & Hr2 & Hs2).
    split; [by eapply grows_trans|]. split; [by auto|]. split; [by auto|].
    intros [Hv Hvs]%Forall_cons.
    destruct (Hs1 Hv) as [Hd1 Hp1]. destruct (Hs2 Hvs) as [Hd2 Hp2].
    split; congruence.
Qed.

(** X5. Over any stretch of a walk that ends normally, the state only
    grows: every key of [usedStyles] and every key of [definedStyles] is
    still there at the end, and the diagnostics sent so far are the
    beginning of the diagnostics sent at the end. *)
Theorem run_grows (vs : list AST.located) (st st' : state) :
  run findImport findRequire vs st = Ok st' → grows st st'.
Proof. intros Hrun. by apply run_facts in Hrun as (? & _). Qed.

(** X6. After a walk that ends normally, the keys of [definedStyles]
    are pairwise distinct, so one pass of the diff names a key at most
    once. *)
Theorem lint_keys_distinct (program : AST.node) (st : state) :
  lint findImport findRequire program = Ok st →
  NoDup (definedStyles st).*1.
Proof.
  intros Hrun. apply run_facts in Hrun as (_ & Hnodup & _).
  apply Hnodup. apply NoDup_nil_2.
Qed.

(** X7. After a walk that ends normally, every diagnostic that was sent
    carries the message [Style `k` is unused] for some key [k] of
    [definedStyles]. *)
Theorem lint_reports_defined (program : AST.node) (st : state) :
  lint findImport findRequire program = Ok st →
  Forall (λ r, ∃ k, r.2 = unusedMessage k ∧ k ∈ (definedStyles st).*1)
    (reports st).
Proof.
  intros Hrun. apply run_facts in Hrun as (_ & _ & Hdefined & _).
  apply Hdefined. apply Forall_nil_2.
Qed.

End Walk.

(** ** Parent links below the root of a tree *)

Scheme All for list.
Scheme All for option.
Scheme All for prod.
Scheme node_nested_ind := Induction for AST.node Sort Prop.

Lemma Forall_flat_map {A B : Type} (Q : B → Prop) (f : A → list B)
    (l : list A) :
  (∀ x, x ∈ l → Forall Q (f x)) → Forall Q (flat_map f l).
Proof.
  induction l as [|x l IH]; intros Hall; simpl; [done|].
  apply Forall_app. split.
  - apply Hall, list_elem_of_here.
  - apply IH. intros y Hy. by apply Hall, list_elem_of_further.
Qed.

Lemma list_all_elem_of {A : Type} (P : A → Prop) (l : list A) :
  list_all A P l → ∀ x, x ∈ l → P x.
Proof.
  induction 1 as [|a Ha l _ IH]; intros x Hx.
  - by apply elem_of_nil in Hx.
  - apply elem_of_cons in Hx as [->|Hx]; [done|by apply IH].
Qed.

Lemma linked_cons (n : AST.node) (parents : list AST.node) :
  linked parents → linked (n :: parents).
Proof. intros Hps _ ->. done. Qed.

(** Below linked parents, every node is visited with linked parents. *)
Lemma visits_linked (n : AST.node) :
  ∀ parents, linked parents →
             Forall (λ v, linked v.2) (AST.visits parents n).
Proof.
  induction n using node_nested_ind; intros parents Hps;
    cbn [AST.visits]; (apply Forall_cons; split; [done|]);
    repeat (apply Forall_app; split);
    repeat match goal with
      | |- Forall _ [] => apply Forall_nil_2
      | H : ∀ ps, linked ps → Forall _ (AST.visits ps ?c)
        |- Forall _ (AST.visits _ ?c) => apply H; by apply linked_cons
      | H : list_all _ _ ?l |- Forall _ (flat_map _ ?l) =>
          apply Forall_flat_map; intros c Hc;
          pose proof (list_all_elem_of _ _ H c Hc) as IHc;
          clear H; cbv beta in IHc
      | H : option_all _ _ ?o |- Forall _ (match ?o with _ => _ end) =>
          destruct H
      end.
  set (here := _ :: parents).
  assert (Hhere : linked here) by (by apply linked_cons). clearbody here.
  induction H as [|p [c IHc q _] l _ IHl]; cbn [flat_map fst];
    [apply Forall_nil_2|apply Forall_app; split; [by apply IHc|done]].
Qed.

(** Below a [Program], every node has linked parents. *)
Lemma visits_program_linked (body : list AST.node) :
  Forall (λ v, AST.isMemberExpression v.1 = true → linked v.2)
    (AST.visits [] (AST.Program body)).
Proof.
  cbn [AST.visits]. apply Forall_cons. split; [done|].
  apply Forall_flat_map. intros c _.
  eapply Forall_impl; [apply visits_linked|]; [|by auto].
  by intros ?.
Qed.

(** ** Where a walk can throw *)

(** With linked parents, the callback for a member access finds the
    [parent] and the [parent.parent] it reads. *)
Lemma memberExpressionExit_total (object property : AST.node)
    (computed : bool) (parents : list AST.node) (st : state) :
  linked parents →
  ∃ e, memberExpressionExit (AST.MemberExpression object property computed)
         parents st = Ok e.
Proof.
  intros Hps. unfold memberExpressionExit.
  destruct (isCSSFound st); simpl; [|by eexists].
  destruct (bool_decide _); [by eexists|].
  destruct (truthy _); simpl; [|by eexists].
  destruct (differs _ _); [by eexists|].
  destruct parents as [|parent ancestors]; [done|].
  destruct parent; try by eexists.
  destruct (match AST.object object with
            | Some inner => negb (AST.isThisExpression inner)
            | None => false
            end); [by eexists|].
  destruct (_ && _); [by eexists|].
  destruct (_ && _); [by eexists|].
  destruct ancestors as [|grandparent ancestors]; [by destruct Hps|].
  destruct (AST.isMemberExpression grandparent); by eexists.
Qed.

Section Totality.

Variable findImport findRequire : AST.node → list AST.node → option string.

Lemma enter_total (v : AST.located) (st : state) :
  (AST.isMemberExpression v.1 = true → linked v.2) →
  throwingCall v.1 = false →
  ∃ st', enter findImport findRequire v st = Ok st'.
Proof.
  destruct v as [node parents]. unfold enter. cbn [fst snd].
  intros Hlinked Hsafe. destruct node; try by eexists.
  - unfold ImportDeclaration. destruct (isCSSFound st); [by eexists|].
    destruct (findImport _ _); by eexists.
  - destruct (memberExpressionExit_total node1 node2 computed parents st)
      as [e He]; [by apply Hlinked|].
    exists (applyExit e st). by apply memberExpression_exit.
  - unfold CallExpression. cbv zeta. cbn [throwingCall] in Hsafe.
    destruct (isCSSFound (recordRequire _ _ _ _)); simpl; [|by eexists].
    destruct (bool_decide _); [|by eexists]. simpl in Hsafe.
    destruct (extractStyles_ok (head arguments)
                (recordRequire findRequire (AST.CallExpression node arguments)
                   parents st) Hsafe) as (st' & -> & _).
    by eexists.
Qed.

Lemma run_total (vs : list AST.located) (st : state) :
  Forall (λ v, AST.isMemberExpression v.1 = true → linked v.2) vs →
  Forall (λ v, throwingCall v.1 = false) vs →
  ∃ st', run findImport findRequire vs st = Ok st'.
Proof.
  unfold run. intros Hlinked. revert st.
  induction Hlinked as [|v vs Hv _ IH]; intros st Hsafe; simpl.
  - by eexists.
  - apply Forall_cons in Hsafe as [Hsafev Hsafe].
    destruct (enter_total v st Hv Hsafev) as [st1 ->]. simpl.
    by apply IH.
Qed.

(** X8. The walk of a program ends normally, whatever the detectors
    answer, unless the program holds a call of [withStyles] whose first
    argument is an arrow function that has a bare [return] at the top
    level of its block body or a property without [key] (neither
    computed nor an [ExperimentalSpreadProperty]) in its definitions
    object: nothing else in a tree makes a callback throw. *)
Theorem lint_total (body : list AST.node) :
  Forall (λ v, throwingCall v.1 = false)
    (AST.visits [] (AST.Program body)) →
  ∃ st, lint findImport findRequire (AST.Program body) = Ok st.
Proof.
  intros Hsafe. unfold lint.
  apply run_total; [apply visits_program_linked|exact Hsafe].
Qed.

(** X9. A program without any call whose callee is the identifier
    [withStyles] gets no diagnostic and no error, whatever the detectors
    answer and whatever else it holds: [definedStyles] stays empty. *)
Theorem no_withStyles_no_diagnostics (body : list AST.node) :
  Forall (λ v, callsWithStyles v.1 = false)
    (AST.visits [] (AST.Program body)) →
  ∃ st, lint findImport findRequire (AST.Program body) = Ok st
        ∧ reports st = [] ∧ definedStyles st = [].
Proof.
  intros Hnone.
  destruct (run_total (AST.visits [] (AST.Program body)) initial)
    as [st Hrun]; [apply visits_program_linked| |].
  { eapply Forall_impl; [exact Hnone|]. intros [node parents]. cbn [fst].
    destruct node; try done. simpl. by intros ->. }
  exists st. split; [done|].
  apply run_facts in Hrun as (_ & _ & _ & Hsame).
  by destruct (Hsame Hnone) as [-> ->].
Qed.

End Totality.

(** ** The gate, once open *)

Section Gate.

Variable findImport findRequire : AST.node → list AST.node → option string.




End Gate.

(** ** Which accesses through [.styles] count *)


(** X12. With the gate open, a member access whose object is not the
    identifier [styles] and whose parent's parent is a member access
    marks nothing: in [a.styles.b.c] the access [a.styles] does not mark
    [b]. *)
Theorem continued_chain_marks_nothing
    (object property : AST.node) (computed : bool)
    (parent grandparent : AST.node) (ancestors : list AST.node) (st : state) :
  isCSSFound st = true →
  AST.name object ≠ Some "styles" →
  AST.isMemberExpression grandparent = true →
  MemberExpression (AST.MemberExpression object property computed)
    (parent :: grandparent :: ancestors) st = Ok st.
Proof.
  intros Hfound Hobject Hgrand.
  unfold MemberExpression, memberExpressionExit. rewrite Hfound. simpl.
  rewrite (bool_decide_eq_false_2 _ Hobject).
  destruct (truthy _); simpl; [|done].
  destruct (differs _ _); [done|].
  destruct parent; try done.
  destruct (match AST.object object with
            | Some inner => negb (AST.isThisExpression inner)
            | None => false
            end); [done|].
  destruct (_ && _); [done|]. destruct (_ && _); [done|].
  by rewrite Hgrand.
Qed.

(** X13. With the gate open, the walk of [this.props.styles.k.m]
    marks nothing, wherever the expression stands below a parent: a
    further member access after [this.props.styles.k] keeps [k] from
    being counted as used. *)
Theorem walk_of_continued_chain
    (findImport findRequire : AST.node → list AST.node → option string)
    (k m : string) (parent : AST.node) (ancestors : list AST.node)
    (st : state) :
  isCSSFound st = true → k ≠ "" → m ≠ "" →
  run findImport findRequire
    (AST.visits (parent :: ancestors)
       (AST.MemberExpression (Sample.thisPropsStylesDot k) (AST.Identifier m)
          false)) st
  = Ok st.
Proof.
  intros Hfound Hk Hm.
  assert (Hother : ∀ object x computed parents,
            AST.name object ≠ Some "styles" → x ≠ "" → x ≠ "styles" →
            MemberExpression
              (AST.MemberExpression object (AST.Identifier x) computed)
              parents st = Ok st).
  { intros object x computed parents Hobject Hx Hstyles.
    by rewrite (memberExpression_exit _ _ _ PropertyNotStyles)
      by by apply exit_other_property. }
  assert (Hdeep : ∀ object inner p c1 c2 parent' ancestors',
            AST.name object ≠ Some "styles" →
            AST.object object = Some (AST.MemberExpression inner p c1) →
            MemberExpression
              (AST.MemberExpression object (AST.Identifier "styles") c2)
              (parent' :: ancestors') st = Ok st).
  { intros object inner p c1 c2 parent' ancestors' Hobject Hobj.
    unfold MemberExpression, memberExpressionExit. rewrite Hfound. simpl.
    rewrite (bool_decide_eq_false_2 _ Hobject). simpl. rewrite Hobj.
    by destruct parent'. }
  unfold Sample.thisPropsStylesDot, Sample.thisPropsStyles, Sample.thisProps,
    run.
  cbn [AST.visits flat_map app forEach enter fst snd].
  assert (H4 : MemberExpression
                 (AST.MemberExpression
                    (AST.MemberExpression
                       (AST.MemberExpression
                          (AST.MemberExpression AST.ThisExpression
                             (AST.Identifier "props") false)
                          (AST.Identifier "styles") false)
                       (AST.Identifier k) false)
                    (AST.Identifier m) false)
                 (parent :: ancestors) st = Ok st).
  { destruct (decide (m = "styles")) as [->|Hstyles].
    - by eapply Hdeep.
    - by apply Hother. }
  rewrite H4. cbn [mbind result_bind].
  assert (H3 : ∀ parents,
            MemberExpression
              (AST.MemberExpression
                 (AST.MemberExpression
                    (AST.MemberExpression AST.ThisExpression
                       (AST.Identifier "props") false)
                    (AST.Identifier "styles") false)
                 (AST.Identifier k) false)
              (AST.MemberExpression
                 (AST.MemberExpression
                    (AST.MemberExpression
                       (AST.MemberExpression AST.ThisExpression
                          (AST.Identifier "props") false)
                       (AST.Identifier "styles") false)
                    (AST.Identifier k) false)
                 (AST.Identifier m) false :: parents) st = Ok st).
  { intros parents. destruct (decide (k = "styles")) as [->|Hstyles].
    - by eapply Hdeep.
    - by apply Hother. }
  rewrite H3. cbn [mbind result_bind].
  assert (H2 : ∀ parent' grandparent' ancestors',
            AST.isMemberExpression parent' = true →
            AST.isMemberExpression grandparent' = true →
            MemberExpression
              (AST.MemberExpression
                 (AST.MemberExpression AST.ThisExpression
                    (AST.Identifier "props") false)
                 (AST.Identifier "styles") false)
              (parent' :: grandparent' :: ancestors') st = Ok st).
  { intros parent' grandparent' ancestors' Hparent' Hgrand'.
    unfold MemberExpression, memberExpressionExit. rewrite Hfound. simpl.
    destruct parent'; try done. rewrite Hgrand'.
    destruct (_ && _); [done|]. by destruct (_ && _). }
  rewrite H2 by done. cbn [mbind result_bind].
  by rewrite Hother.
Qed.

(** ** The usual layout: uses first, definitions last *)

Lemma assign_fresh {V : Type} (k : string) (v : V) (o : list (string * V)) :
  k ∉ o.*1 → assign k v o = o ++ [(k, v)].
Proof.
  induction o as [|[k' v'] o IH]; intros Hfresh; simpl; [done|].
  apply not_elem_of_cons in Hfresh as [Hne Hfresh].
  rewrite bool_decide_eq_false_2 by done. by rewrite IH.
Qed.

Lemma define_rules (ks : list string) (st : state) :
  NoDup ks → "__proto__" ∉ ks → (∀ k, k ∈ ks → k ∉ (definedStyles st).*1) →
  forEach defineProperty (Sample.rule <$> ks) st
  = Ok (State (cssFromWithStylesName st) (usedStyles st)
          (definedStyles st ++ ((λ k, (k, Sample.rule k)) <$> ks))
          (reports st)).
Proof.
  intros Hnodup. revert st.
  induction Hnodup as [|k ks Hk _ IH]; intros st Hproto Hfresh; simpl.
  - rewrite app_nil_r. by destruct st.
  - apply not_elem_of_cons in Hproto as [Hne Hproto].
    rewrite IH; [|done|].
    + simpl. unfold define. rewrite bool_decide_eq_false_2 by done.
      rewrite assign_fresh by (apply Hfresh, list_elem_of_here).
      by rewrite <- app_assoc.
    + intros k' Hk'. simpl. unfold define.
      rewrite bool_decide_eq_false_2 by done.
      rewrite assign_fresh by (apply Hfresh, list_elem_of_here).
      rewrite fmap_app. intros [Hin|Hin]%elem_of_app.
      * by apply (Hfresh k'); [apply list_elem_of_further|].
      * apply list_elem_of_singleton in Hin. simpl in Hin. by subst.
Qed.

Lemma unusedEntries_rules (used : gset string) (ks : list string) :
  unusedEntries used ((λ k, (k, Sample.rule k)) <$> ks)
  = (λ k, (Sample.rule k, unusedMessage k)) <$> filter (λ k, k ∉ used) ks.
Proof.
  induction ks as [|k ks IH]; [done|]. cbn [fmap list_fmap unusedEntries].
  fold (fmap (M:=list) (λ k, (k, Sample.rule k))). rewrite IH. unfold has.
  destruct (decide (k ∈ used)) as [Hin|Hout].
  - rewrite bool_decide_eq_true_2 by done.
    by rewrite filter_cons_False by (by intros ?).
  - rewrite bool_decide_eq_false_2 by done.
    by rewrite filter_cons_True.
Qed.

Lemma filter_agree {A : Type} (P1 P2 : A → Prop)
    `{!∀ x, Decision (P1 x), !∀ x, Decision (P2 x)} (l : list A) :
  (∀ x, x ∈ l → P1 x ↔ P2 x) → filter P1 l = filter P2 l.
Proof.
  induction l as [|a l IH]; intros Hiff; [done|].
  assert (Ha : P1 a ↔ P2 a) by apply Hiff, list_elem_of_here.
  assert (Hl : filter P1 l = filter P2 l).
  { apply IH. intros x Hx. by apply Hiff, list_elem_of_further. }
  destruct (decide (P1 a)) as [H1|H1].
  - rewrite !filter_cons_True by tauto. by rewrite Hl.
  - rewrite !filter_cons_False by tauto. done.
Qed.

Lemma usedStyles_foldl (used : list string) (st : state) (k : string) :
  k ∈ usedStyles (foldl (λ st' x, setUsed x st') st used)
  ↔ k ∈ usedStyles st ∨ (k ∈ used ∧ k ≠ "__proto__").
Proof.
  revert st. induction used as [|x used IH]; intros st; simpl.
  - split; [by left|]. intros [?|[?%elem_of_nil _]]; done.
  - rewrite IH. unfold setUsed, markUsed. simpl. rewrite elem_of_cons.
    destruct (decide (x = "__proto__")) as [->|Hne].
    + rewrite bool_decide_eq_true_2 by done. split.
      * intros [?|[? ?]]; [by left|right; by auto].
      * intros [?|[[->|?] ?]]; [by left|done|right; by auto].
    + rewrite bool_decide_eq_false_2 by done.
      rewrite elem_of_union, elem_of_singleton. split.
      * intros [[->|?]|[? ?]]; [right; by auto|by left|right; by auto].
      * intros [?|[[->|?] ?]]; [left; by right|left; by left|right; by auto].
Qed.

Lemma foldl_setUsed_same (used : list string) (st : state) :
  cssFromWithStylesName (foldl (λ st' x, setUsed x st') st used)
  = cssFromWithStylesName st
  ∧ definedStyles (foldl (λ st' x, setUsed x st') st used) = definedStyles st
  ∧ reports (foldl (λ st' x, setUsed x st') st used) = reports st.
Proof.
  revert st. induction used as [|x used IH]; intros st; simpl; [done|].
  by destruct (IH (setUsed x st)) as (-> & -> & ->).
Qed.

Section UsualLayout.

Variable findImport findRequire : AST.node → list AST.node → option string.

Lemma run_uses (used : list string) (parents : list AST.node) (st : state) :
  isCSSFound st = true → Forall (λ k, k ≠ "") used →
  run findImport findRequire
    (flat_map (AST.visits parents) (useStatement <$> used)) st
  = Ok (foldl (λ st' x, setUsed x st') st used).
Proof.
  intros Hfound Hused. revert st Hfound.
  induction Hused as [|k used Hk _ IH]; intros st Hfound; [done|].
  cbn [fmap list_fmap flat_map]. rewrite run_app.
  assert (Hone : run findImport findRequire
                   (AST.visits parents (useStatement k)) st
                 = Ok (setUsed k st)).
  { unfold run, useStatement, Sample.stylesDot.
    cbn [AST.visits flat_map app forEach enter fst snd mbind result_bind].
    unfold MemberExpression, memberExpressionExit. rewrite Hfound. simpl.
    unfold useStyle. simpl. by rewrite bool_decide_eq_false_2. }
  rewrite Hone. cbn [mbind result_bind foldl]. by apply IH.
Qed.

Lemma run_rules (ks : list string) (parents : list AST.node) (st : state) :
  run findImport findRequire
    (flat_map (AST.visits parents) (Sample.rule <$> ks)) st = Ok st.
Proof.
  induction ks as [|k ks IH]; [done|].
  cbn [fmap list_fmap flat_map]. rewrite run_app.
  assert (Hone : run findImport findRequire
                   (AST.visits parents (Sample.rule k)) st = Ok st) by done.
  rewrite Hone. apply IH.
Qed.

(** X14. In a file of the usual layout — the import, recognised under a
    non-empty name; then uses [styles.k;] for the names in [used]; then
    [withStyles(() => ({ ... }))] defining the pairwise distinct names in
    [defined], at which the require detector stays silent — the walk ends
    normally and the diagnostics are exactly one per defined name that
    is not used, in the order of definition, each anchored at its
    property. *)
Theorem usual_layout_reports_unused
    (used defined : list string) (name : string) :
  findImport Sample.importCSS [usesThenDefinition used defined] = Some name →
  name ≠ "" →
  findRequire (definitionCall defined)
    [definitionStatement defined; usesThenDefinition used defined] = None →
  Forall (λ k, k ≠ "") used →
  NoDup defined → "__proto__" ∉ defined →
  ∃ st, lint findImport findRequire (usesThenDefinition used defined) = Ok st
        ∧ reports st
          = (λ k, (Sample.rule k, unusedMessage k))
            <$> filter (λ k, k ∉ used) defined.
Proof.
  intros Himport Hname Hrequire Hused Hnodup Hproto.
  set (program := usesThenDefinition used defined) in *.
  set (st1 := setName name initial).
  set (st2 := foldl (λ st' x, setUsed x st') st1 used).
  assert (Hfound1 : isCSSFound st1 = true).
  { unfold isCSSFound. simpl. by rewrite bool_decide_eq_false_2. }
  destruct (foldl_setUsed_same used st1) as (Hname2 & Hdefined2 & Hreports2).
  fold st2 in Hname2, Hdefined2, Hreports2.
  assert (Hfound2 : isCSSFound st2 = true).
  { unfold isCSSFound in *. by rewrite Hname2. }
  assert (H1 : run findImport findRequire
                 (AST.visits [program] Sample.importCSS) initial = Ok st1).
  { unfold run, Sample.importCSS.
    cbn [AST.visits flat_map app forEach enter fst snd].
    unfold ImportDeclaration. simpl. fold Sample.importCSS.
    by rewrite Himport. }
  pose proof (run_uses used [program] st1 Hfound1 Hused) as H2. fold st2 in H2.
  assert (Hcall : ∃ st3,
            CallExpression findRequire (definitionCall defined)
              [definitionStatement defined; program] st2 = Ok st3
            ∧ reports st3
              = (λ k, (Sample.rule k, unusedMessage k))
                <$> filter (λ k, k ∉ used) defined).
  { unfold CallExpression, recordRequire. rewrite Hrequire. cbv zeta.
    rewrite Hfound2. simpl.
    rewrite define_rules; [|done|done|].
    - simpl. eexists. split; [done|]. rewrite reportUnused_spec. simpl.
      rewrite Hreports2, Hdefined2. simpl. rewrite unusedEntries_rules.
      f_equal. apply filter_agree. intros k Hk. unfold st2.
      rewrite usedStyles_foldl. simpl. split.
      + intros Hout Hin. apply Hout. right. split; [done|].
        intros ->. done.
      + intros Hout [Hin|[Hin _]]; [by apply elem_of_empty in Hin|done].
    - intros k _. rewrite Hdefined2. simpl. apply not_elem_of_nil. }
  destruct Hcall as (st3 & Hcall & Hreports3).
  assert (H3 : run findImport findRequire
                 (AST.visits [program] (definitionStatement defined)) st2
               = Ok st3).
  { unfold run, definitionStatement.
    cbn [AST.visits flat_map app forEach enter fst snd mbind result_bind].
    fold (definitionStatement defined).
    unfold definitionCall, Sample.withStylesOf in *.
    cbn [AST.visits flat_map app forEach enter fst snd mbind result_bind].
    rewrite Hcall. cbn [mbind result_bind]. rewrite app_nil_r.
    apply run_rules. }
  exists st3. split; [|done].
  unfold lint, program, usesThenDefinition. fold program.
  cbn [AST.visits flat_map]. rewrite flat_map_app. cbn [flat_map].
  rewrite app_nil_r.
  change ((?x :: ?l1) ++ ?l2) with (x :: (l1 ++ l2)).
  unfold run in *. cbn [forEach enter fst snd mbind result_bind].
  change (AST.Program (Sample.importCSS :: _)) with program.
  rewrite forEach_app, H1. cbn [mbind result_bind].
  rewrite forEach_app, H2. cbn [mbind result_bind]. exact H3.
Qed.

End UsualLayout.

(** ** A style that has been used is not reported afterwards *)

Lemma length_append (s1 s2 : string) :
  String.length (s1 +:+ s2) = String.length s1 + String.length s2.
Proof. induction s1 as [|c s1 IH]; simpl; [done|]. by rewrite IH. Qed.

Lemma append_inj_r (s1 s2 s : string) : s1 +:+ s = s2 +:+ s → s1 = s2.
Proof.
  revert s2. induction s1 as [|c1 s1 IH]; intros [|c2 s2] Heq; simpl in Heq.
  - done.
  - apply (f_equal String.length) in Heq.
    change (String.length s = S (String.length (s2 +:+ s))) in Heq.
    rewrite length_append in Heq. lia.
  - apply (f_equal String.length) in Heq.
    change (S (String.length (s1 +:+ s)) = String.length s) in Heq.
    rewrite length_append in Heq. lia.
  - injection Heq as -> Heq. f_equal. by apply IH.
Qed.

Lemma unusedMessage_inj (k1 k2 : string) :
  unusedMessage k1 = unusedMessage k2 → k1 = k2.
Proof.
  unfold unusedMessage. intros Heq.
  apply (inj (String.app "Style `")) in Heq. by apply append_inj_r in Heq.
Qed.

Section UsedBefore.

Variable findImport findRequire : AST.node → list AST.node → option string.

Lemma enter_added (v : AST.located) (st st' : state) :
  enter findImport findRequire v st = Ok st' →
  ∃ added, reports st' = reports st ++ added
           ∧ Forall (λ r, ∃ k, r.2 = unusedMessage k ∧ k ∉ usedStyles st)
               added.
Proof.
  assert (Hnone : ∀ st1 : state, reports st1 = reports st →
            ∃ added, reports st1 = reports st ++ added
                     ∧ Forall (λ r, ∃ k, r.2 = unusedMessage k
                                         ∧ k ∉ usedStyles st) added).
  { intros st1 ->. exists []. by rewrite app_nil_r. }
  destruct v as [node parents]. unfold enter.
  destruct node; cbn [fst snd]; try (intros [= <-]; by apply Hnone).
  - intros (_ & _ & Hr)%ImportDeclaration_facts. by apply Hnone.
  - intros (_ & _ & _ & Hr)%MemberExpression_facts. by apply Hnone.
  - unfold CallExpression. cbv zeta.
    destruct (recordRequire_same findRequire
                (AST.CallExpression node arguments) parents st)
      as (Hu & Hd & Hr).
    set (st1 := recordRequire _ _ _ _) in *.
    destruct (isCSSFound st1); simpl; [|intros [= <-]; by apply Hnone].
    destruct (bool_decide _); [|intros [= <-]; by apply Hnone].
    destruct (extractionThrows (head arguments)) eqn:Hthrow.
    { by rewrite (extractStyles_throws _ _ Hthrow). }
    destruct (extractStyles_ok (head arguments) st1 Hthrow)
      as (st2 & -> & _ & Hu2 & Hr2 & _).
    simpl. intros [= <-]. rewrite reportUnused_spec. simpl.
    rewrite Hr2, Hr, Hu2, Hu. eexists. split; [done|].
    apply Forall_forall. intros [n message] Hin.
    apply elem_of_unusedEntries in Hin as (k & _ & Hk & ->). by exists k.
Qed.

(** X15. Once a key is in [usedStyles], no diagnostic sent later in the
    walk is the message for that key: a [withStyles] call entered after the
    use does not report the style, however many such calls follow. *)
Theorem used_not_reported_later
    (vs : list AST.located) (st st' : state) (k : string) :
  k ∈ usedStyles st →
  run findImport findRequire vs st = Ok st' →
  ∃ added, reports st' = reports st ++ added
           ∧ Forall (λ r, r.2 ≠ unusedMessage k) added.
Proof.
  unfold run. revert st. induction vs as [|v vs IH]; intros st Hused; simpl.
  - intros [= <-]. exists []. by rewrite app_nil_r.
  - destruct (enter findImport findRequire v st) as [st1|] eqn:Hv; [|done].
    simpl. intros Hrest.
    destruct (enter_added v st st1 Hv) as (added1 & Hr1 & Hadded1).
    apply enter_facts in Hv as ((Hgrow & _) & _).
    destruct (IH st1 (Hgrow k Hused) Hrest) as (added2 & Hr2 & Hadded2).
    exists (added1 ++ added2). split.
    + by rewrite Hr2, Hr1, <- app_assoc.
    + apply Forall_app. split; [|done].
      eapply Forall_impl; [exact Hadded1|].
      intros r (k' & Hmessage & Hk') Heq. rewrite Hmessage in Heq.
      apply unusedMessage_inj in Heq. by subst.
Qed.

End UsedBefore.

(** ** The properties above at sample inputs *)

Lemma defined_last_wins_witness :
  ∃ st', forEach defineProperty
           [Sample.rule "a"; File.quotedFoo; Sample.rule "a"] initial = Ok st'
         ∧ get (definedStyles st') "a"
           = match (if bool_decide ("a" = "__proto__") then None
                    else last (filter (λ p, recordedKey p = Some "a")
                                 [Sample.rule "a"; File.quotedFoo;
                                  Sample.rule "a"])) with
             | Some property => Some property
             | None => get (definedStyles initial) "a"
             end.
Proof.
  apply (defined_last_wins [Sample.rule "a"; File.quotedFoo; Sample.rule "a"]
           initial "a").
  reflexivity.
Defined.

Lemma call_throws_iff_witness :
  CallExpression detectRequire
    (AST.CallExpression (AST.Identifier "withStyles")
       [AST.ArrowFunctionExpression []
          (AST.BlockStatement File.objectThenBareReturn)])
    [] Sample.found = TypeError.
Proof.
  apply (call_throws_iff detectRequire (AST.Identifier "withStyles")
           [AST.ArrowFunctionExpression []
              (AST.BlockStatement File.objectThenBareReturn)]
           [] Sample.found).
  repeat split; reflexivity.
Defined.

Lemma withStyles_call_diff_witness :
  ∃ st', CallExpression detectRequire
           (AST.CallExpression (AST.Identifier "withStyles")
              [AST.ArrowFunctionExpression []
                 (AST.ObjectExpression [Sample.rule "a"; Sample.rule "b"])])
           [] Sample.found = Ok st'
         ∧ usedStyles st' = usedStyles Sample.found
         ∧ reports st'
           = reports Sample.found
             ++ unusedEntries (usedStyles Sample.found) (definedStyles st')
         ∧ ∀ n message,
             (n, message)
             ∈ unusedEntries (usedStyles Sample.found) (definedStyles st')
             ↔ ∃ k, (k, n) ∈ definedStyles st'
                    ∧ (k ∉ usedStyles Sample.found)
                    ∧ message = unusedMessage k.
Proof.
  apply (withStyles_call_diff detectRequire (AST.Identifier "withStyles")
           [AST.ArrowFunctionExpression []
              (AST.ObjectExpression [Sample.rule "a"; Sample.rule "b"])]
           [] Sample.found);
    reflexivity.
Defined.

Lemma run_grows_witness : grows initial File.afterOneUnused.
Proof.
  apply (run_grows detectImport detectRequire
           (AST.visits [] File.oneUnused) initial File.afterOneUnused).
  vm_compute. reflexivity.
Defined.

Lemma lint_keys_distinct_witness : NoDup (definedStyles File.afterOneUnused).*1.
Proof.
  apply (lint_keys_distinct detectImport detectRequire File.oneUnused
           File.afterOneUnused).
  vm_compute. reflexivity.
Defined.

Lemma lint_reports_defined_witness :
  Forall (λ r, ∃ k, r.2 = unusedMessage k
                    ∧ k ∈ (definedStyles File.afterOneUnused).*1)
    (reports File.afterOneUnused).
Proof.
  apply (lint_reports_defined detectImport detectRequire File.oneUnused
           File.afterOneUnused).
  vm_compute. reflexivity.
Defined.

Lemma lint_total_witness :
  ∃ st, lint detectImport detectRequire
          (AST.Program
             [Sample.importCSS;
              AST.ExpressionStatement (Sample.stylesDot "a");
              Sample.withStylesAB]) = Ok st.
Proof.
  apply (lint_total detectImport detectRequire
           [Sample.importCSS;
            AST.ExpressionStatement (Sample.stylesDot "a");
            Sample.withStylesAB]).
  repeat constructor.
Defined.

Lemma no_withStyles_no_diagnostics_witness :
  ∃ st, lint detectImport detectRequire
          (AST.Program
             [Sample.importCSS;
              AST.ExpressionStatement (Sample.thisPropsStylesDot "a")])
        = Ok st
        ∧ reports st = [] ∧ definedStyles st = [].
Proof.
  apply (no_withStyles_no_diagnostics detectImport detectRequire
           [Sample.importCSS;
            AST.ExpressionStatement (Sample.thisPropsStylesDot "a")]).
  repeat constructor.
Defined.



Lemma continued_chain_marks_nothing_witness :
  MemberExpression Sample.thisPropsStyles
    [Sample.thisPropsStylesDot "foo";
     AST.MemberExpression (Sample.thisPropsStylesDot "foo")
       (AST.Identifier "bar") false;
     File.chainStatement] Sample.found
  = Ok Sample.found.
Proof.
  apply (continued_chain_marks_nothing Sample.thisProps
           (AST.Identifier "styles") false (Sample.thisPropsStylesDot "foo")
           (AST.MemberExpression (Sample.thisPropsStylesDot "foo")
              (AST.Identifier "bar") false)
           [File.chainStatement] Sample.found);
    try reflexivity; discriminate.
Defined.

Lemma walk_of_continued_chain_witness :
  run detectImport detectRequire
    (AST.visits [File.chainStatement]
       (AST.MemberExpression (Sample.thisPropsStylesDot "foo")
          (AST.Identifier "bar") false)) Sample.found
  = Ok Sample.found.
Proof.
  apply (walk_of_continued_chain detectImport detectRequire "foo" "bar"
           File.chainStatement [] Sample.found);
    try reflexivity; discriminate.
Defined.

Lemma usual_layout_reports_unused_witness :
  ∃ st, lint detectImport detectRequire
          (usesThenDefinition ["a"] ["a"; "b"; "c"]) = Ok st
        ∧ reports st
          = (λ k, (Sample.rule k, unusedMessage k))
            <$> filter (λ k, k ∉ ["a"]) ["a"; "b"; "c"].
Proof.
  apply (usual_layout_reports_unused detectImport detectRequire
           ["a"] ["a"; "b"; "c"] "css").
  - reflexivity.
  - discriminate.
  - reflexivity.
  - repeat constructor; discriminate.
  - apply (bool_decide_unpack (NoDup ["a"; "b"; "c"])). vm_compute. exact I.
  - apply (bool_decide_unpack ("__proto__" ∉ ["a"; "b"; "c"])).
    vm_compute. exact I.
Defined.

Lemma used_not_reported_later_witness :
  ∃ st' added,
    run detectImport detectRequire (AST.visits [] Sample.withStylesAB)
      (setUsed "a" Sample.found) = Ok st'
    ∧ reports st' = reports (setUsed "a" Sample.found) ++ added
    ∧ Forall (λ r, r.2 ≠ unusedMessage "a") added.
Proof.
  destruct (run detectImport detectRequire (AST.visits [] Sample.withStylesAB)
              (setUsed "a" Sample.found)) as [st'|] eqn:Hrun;
    [|by vm_compute in Hrun].
  destruct (used_not_reported_later detectImport detectRequire
              (AST.visits [] Sample.withStylesAB) (setUsed "a" Sample.found)
              st' "a") as (added & Hreports & Hadded).
  - apply (bool_decide_unpack ("a" ∈ usedStyles (setUsed "a" Sample.found))).
    vm_compute. exact I.
  - exact Hrun.
  - by exists st', added.
Defined.
